(** * Service monitor: a shallow embedding of [network/api-monitor/monitor.py]

    The development follows the Python source top-down: the exceptions the
    probers can meet, the [MonitorStats] dataclass, the three probers of
    [ServiceMonitor], the status printer, the statistics printer and the
    [run] loop with its [finally] block.

    Modelling conventions.
    - Python [int] is [Z]; Python [float] is idealised as an exact rational
      [Q] (latencies, thresholds, the uptime percentage), so the interval,
      the timeout and the threshold of a monitor are finite numbers here.
      The calls that refuse some floats ([sock.settimeout], [time.sleep])
      can raise.
    - Python [str] is [string]; [Optional[str]] is [option string].  What
      [int] and [str.isdigit] make of text outside ASCII is left to the
      interpreter, as is the limit on the digits [int] converts.
    - Everything the process gets from outside (the HTTP library, sockets,
      the ping subprocess, the clocks, the log file, the interrupt signal) is
      given by an explicit [world] record, one per loop iteration.
    - Code that can raise runs in the [io] monad below: a log of external
      actions together with either a value or a raised exception.  Writing
      to the terminal is taken not to fail; writing to the log file may. *)

From Stdlib Require Import ZArith QArith Lia List Bool String Ascii.
From Stdlib Require Import DecimalString Qround.
Import ListNotations.

Local Open Scope string_scope.
Local Open Scope Z_scope.

(* ------------------------------------------------------------------------- *)
(** ** Exceptions *)

(** The exception classes that occur in the module.  All of them derive from
    [Exception]: SIGINT is rebound to [_signal_handler] in [__init__], so no
    [KeyboardInterrupt] is ever raised inside a probe. *)
Inductive exn_class : Type :=
| ValueError
| IndexError
| ZeroDivisionError
| StatisticsError
| UnicodeDecodeError
| OverflowError
| OSError
| RequestsReadTimeout        (* requests.exceptions.ReadTimeout *)
| RequestsConnectTimeout     (* both a ConnectionError and a Timeout *)
| RequestsConnectionError    (* requests.exceptions.ConnectionError *)
| RequestsException          (* any other RequestException *)
| SocketTimeout              (* socket.timeout *)
| SocketGaierror             (* socket.gaierror *)
| TimeoutExpired             (* subprocess.TimeoutExpired *)
| RuntimeError.

Record exn : Type := mk_exn { exn_cls : exn_class; exn_str : string }.

(** [isinstance] tests used by the [except] clauses. *)
Definition is_requests_Timeout (e : exn) : bool :=
  match exn_cls e with
  | RequestsReadTimeout | RequestsConnectTimeout => true
  | _ => false
  end.

Definition is_requests_ConnectionError (e : exn) : bool :=
  match exn_cls e with
  | RequestsConnectTimeout | RequestsConnectionError => true
  | _ => false
  end.

Definition is_socket_timeout (e : exn) : bool :=
  match exn_cls e with SocketTimeout => true | _ => false end.

Definition is_socket_gaierror (e : exn) : bool :=
  match exn_cls e with SocketGaierror => true | _ => false end.

Definition is_TimeoutExpired (e : exn) : bool :=
  match exn_cls e with TimeoutExpired => true | _ => false end.

Inductive result (A : Type) : Type :=
| Ok (a : A)
| Raise (e : exn).
Arguments Ok {A} a.
Arguments Raise {A} e.

(* ------------------------------------------------------------------------- *)
(** ** Strings: the builtins the module uses *)

Definition str_of_Z (z : Z) : string := NilZero.string_of_int (Z.to_int z).

(** [needle in s] *)
Fixpoint str_in (needle s : string) : bool :=
  String.prefix needle s ||
  match s with
  | EmptyString => false
  | String _ s' => str_in needle s'
  end.

(** [s.rsplit(c, 1)] for a one-character separator: the pieces around the
    last occurrence of [c], or the whole string when [c] does not occur. *)
Fixpoint rsplit1 (c : ascii) (s : string) : list string :=
  match s with
  | EmptyString => [EmptyString]
  | String a s' =>
      match rsplit1 c s' with
      | [h; p] => [String a h; p]
      | _ => if Ascii.eqb a c then [EmptyString; s'] else [s]
      end
  end.

(** [s.split(sep)] for a non-empty separator. *)
Fixpoint split_go (sep : string) (skip : nat) (acc s : string) : list string :=
  match s with
  | EmptyString => [acc]
  | String a s' =>
      match skip with
      | S k => split_go sep k acc s'
      | O =>
          if String.prefix sep s
          then acc :: split_go sep (String.length sep - 1) EmptyString s'
          else split_go sep 0 (acc ++ String a EmptyString) s'
      end
  end.

Definition str_split (sep s : string) : list string :=
  split_go sep 0 EmptyString s.

(** [s.replace(old, '')] *)
Definition str_remove (old s : string) : string :=
  String.concat EmptyString (str_split old s).

(** ASCII white space as [str.isspace] sees it. *)
Definition is_space (a : ascii) : bool :=
  let n := nat_of_ascii a in
  (Nat.leb 9 n && Nat.leb n 13) || (Nat.leb 28 n && Nat.leb n 32).

(** [s.split()] *)
Fixpoint split_ws_go (acc s : string) : list string :=
  match s with
  | EmptyString => match acc with EmptyString => [] | _ => [acc] end
  | String a s' =>
      if is_space a
      then match acc with
           | EmptyString => split_ws_go EmptyString s'
           | _ => acc :: split_ws_go EmptyString s'
           end
      else split_ws_go (acc ++ String a EmptyString) s'
  end.

Definition str_split_ws (s : string) : list string := split_ws_go EmptyString s.

(** [l[i]], raising [IndexError] out of range (non-negative indices). *)
Definition py_index {A} (l : list A) (i : nat) : result A :=
  match nth_error l i with
  | Some a => Ok a
  | None => Raise (mk_exn IndexError "list index out of range")
  end.

(** [repr(s)] of ASCII text, as it appears in the message of [int]. *)
Definition hex_digit (n : nat) : ascii :=
  nth n (list_ascii_of_string "0123456789abcdef") "0"%char.

Definition backslash : ascii := ascii_of_nat 92.
Definition double_quote : ascii := ascii_of_nat 34.

Definition repr_char (quote a : ascii) : string :=
  let n := nat_of_ascii a in
  if Ascii.eqb a quote || Ascii.eqb a backslash
  then String backslash (String a EmptyString)
  else if Nat.eqb n 9 then String backslash "t"
  else if Nat.eqb n 10 then String backslash "n"
  else if Nat.eqb n 13 then String backslash "r"
  else if Nat.ltb n 32 || Nat.eqb n 127
       then String backslash
              (String "x" (String (hex_digit (n / 16))
                             (String (hex_digit (n mod 16)) EmptyString)))
  else String a EmptyString.

Definition py_repr (s : string) : string :=
  let l := list_ascii_of_string s in
  let quote :=
    if existsb (Ascii.eqb "'") l && negb (existsb (Ascii.eqb double_quote) l)
    then double_quote else "'"%char in
  String quote
    (String.concat EmptyString (map (repr_char quote) l) ++ String quote EmptyString).

(** [int(s)] and [s.isdigit()] follow the Unicode tables of the interpreter.
    On ASCII text both are written out below; on any other text they are
    what the interpreter answers, given by [int_non_ascii] (the value, or
    the message of the [ValueError]) and [isdigit_non_ascii].
    [int_max_str_digits] is
    [sys.get_int_max_str_digits()], the limit on the number of digits [int]
    converts: 4300 unless changed, 0 when switched off. *)
Record builtins : Type := mk_builtins
  { int_max_str_digits : nat;
    int_non_ascii : string -> Z + string;
    isdigit_non_ascii : string -> bool }.

Definition is_ascii (s : string) : bool :=
  forallb (fun a => Nat.ltb (nat_of_ascii a) 128) (list_ascii_of_string s).

Definition is_digit (a : ascii) : bool :=
  let n := nat_of_ascii a in Nat.leb 48 n && Nat.leb n 57.

Definition digit_val (a : ascii) : Z := Z.of_nat (nat_of_ascii a) - 48.

(** The white space [int] skips around an ASCII literal: tab, line feed,
    vertical tab, form feed, carriage return and the space. *)
Definition is_int_space (a : ascii) : bool :=
  let n := nat_of_ascii a in
  (Nat.leb 9 n && Nat.leb n 13) || Nat.eqb n 32.

Fixpoint drop_int_space (l : list ascii) : list ascii :=
  match l with
  | a :: l' => if is_int_space a then drop_int_space l' else l
  | [] => []
  end.

Definition strip_int (l : list ascii) : list ascii :=
  rev (drop_int_space (rev (drop_int_space l))).

(** The run of digits and underscores at the head of a literal: its value,
    the number of its digits and what follows it; [RunBad] when two
    underscores meet or an underscore ends the run. *)
Inductive digit_run : Type :=
| RunBad
| RunEnd (value : Z) (digits : nat) (rest : list ascii).

Fixpoint scan_digits (acc : Z) (digits : nat) (after_underscore : bool)
    (l : list ascii) : digit_run :=
  match l with
  | [] => if after_underscore then RunBad else RunEnd acc digits []
  | a :: l' =>
      if is_digit a then scan_digits (10 * acc + digit_val a) (S digits) false l'
      else if Ascii.eqb a "_"
           then if after_underscore then RunBad else scan_digits acc digits true l'
           else if after_underscore then RunBad else RunEnd acc digits l
  end.

Inductive int_literal : Type :=
| IntValue (z : Z)
| IntInvalid
| IntTooLong (digits : nat).

(** The optional sign of a literal, and what follows it. *)
Definition int_sign (l : list ascii) : bool * list ascii :=
  match l with
  | "-"%char :: l' => (true, l')
  | "+"%char :: l' => (false, l')
  | _ => (false, l)
  end.

Definition starts_with_underscore (l : list ascii) : bool :=
  match l with
  | "_"%char :: _ => true
  | _ => false
  end.

(** [int(s)] on ASCII text: surrounding white space, an optional sign, then
    decimal digits that may be grouped by single underscores.  A run of more
    than [limit] digits is refused when it is longer than 640 digits, the
    length below which the limit is not looked at. *)
Definition parse_int (limit : nat) (s : string) : int_literal :=
  let '(negative, body) := int_sign (strip_int (list_ascii_of_string s)) in
  if starts_with_underscore body then IntInvalid
  else
    match scan_digits 0 0 false body with
    | RunBad => IntInvalid
    | RunEnd value digits rest =>
        if Nat.eqb digits 0 then IntInvalid
        else if Nat.ltb 640 digits && Nat.ltb 0 limit && Nat.ltb limit digits
             then IntTooLong digits
        else match rest with
             | [] => IntValue (if negative then - value else value)
             | _ => IntInvalid
             end
    end.

Definition py_int (b : builtins) (s : string) : result Z :=
  if is_ascii s then
    match parse_int (int_max_str_digits b) s with
    | IntValue z => Ok z
    | IntInvalid =>
        Raise (mk_exn ValueError
                 ("invalid literal for int() with base 10: " ++ py_repr s))
    | IntTooLong digits =>
        Raise (mk_exn ValueError
                 ("Exceeds the limit ("
                  ++ str_of_Z (Z.of_nat (int_max_str_digits b))
                  ++ " digits) for integer string conversion: value has "
                  ++ str_of_Z (Z.of_nat digits)
                  ++ " digits; use sys.set_int_max_str_digits() to increase the limit"))
    end
  else match int_non_ascii b s with
       | inl z => Ok z
       | inr message => Raise (mk_exn ValueError message)
       end.

(** [s.isdigit()]: on ASCII text, not empty and decimal digits only. *)
Definition str_isdigit (b : builtins) (s : string) : bool :=
  if is_ascii s then
    match s with
    | EmptyString => false
    | _ => forallb is_digit (list_ascii_of_string s)
    end
  else isdigit_non_ascii b s.

(** f-string rendering of an [Optional[str]]: [None] prints as [None]. *)
Definition fmt_optional_str (o : option string) : string :=
  match o with
  | Some s => s
  | None => "None"
  end.

(** Truthiness of an [Optional[str]]: [None] and the empty string are false. *)
Definition str_truthy (o : option string) : bool :=
  match o with
  | Some (String _ _) => true
  | _ => false
  end.

(** [o if o else dflt] *)
Definition str_or (o : option string) (dflt : string) : string :=
  if str_truthy o then fmt_optional_str o else dflt.

(* ------------------------------------------------------------------------- *)
(** ** Numbers: the builtins the module uses *)

(** [x > y] on floats. *)
Definition Qgtb (x y : Q) : bool := negb (Qle_bool x y).

(** [int(x)] on a finite float: truncation towards zero. *)
Definition Qtrunc (x : Q) : Z :=
  if Qle_bool 0 x then Qfloor x else Qceiling x.

(** [a / b] on ints: true division, [ZeroDivisionError] when [b] is zero. *)
Definition py_truediv (a b : Z) : result Q :=
  if b =? 0 then Raise (mk_exn ZeroDivisionError "division by zero")
  else Ok (inject_Z a / inject_Z b)%Q.

Definition Qsum (l : list Q) : Q := fold_left Qplus l 0%Q.

Definition Qminb (x y : Q) : Q := if Qle_bool x y then x else y.
Definition Qmaxb (x y : Q) : Q := if Qle_bool x y then y else x.

(** [min(l)] and [max(l)]: [ValueError] on an empty list. *)
Definition py_min (l : list Q) : result Q :=
  match l with
  | [] => Raise (mk_exn ValueError "min() arg is an empty sequence")
  | x :: l' => Ok (fold_left Qminb l' x)
  end.

Definition py_max (l : list Q) : result Q :=
  match l with
  | [] => Raise (mk_exn ValueError "max() arg is an empty sequence")
  | x :: l' => Ok (fold_left Qmaxb l' x)
  end.

Fixpoint insert_sorted (x : Q) (l : list Q) : list Q :=
  match l with
  | [] => [x]
  | y :: l' => if Qle_bool x y then x :: l else y :: insert_sorted x l'
  end.

Definition sorted (l : list Q) : list Q := fold_right insert_sorted [] l.

(** [statistics.mean] and [statistics.median]. *)
Definition statistics_mean (l : list Q) : result Q :=
  match l with
  | [] => Raise (mk_exn StatisticsError "mean requires at least one data point")
  | _ => Ok (Qsum l / inject_Z (Z.of_nat (List.length l)))%Q
  end.

Definition statistics_median (l : list Q) : result Q :=
  let data := sorted l in
  let n := List.length data in
  match n with
  | O => Raise (mk_exn StatisticsError "no median for empty data")
  | _ =>
      if Nat.odd n then Ok (nth (n / 2) data 0%Q)
      else let i := (n / 2)%nat in
           Ok ((nth (i - 1) data 0%Q + nth i data 0%Q) / 2)%Q
  end.

(* ------------------------------------------------------------------------- *)
(** ** Data model *)

(** The triple every prober returns: [(sucesso, tempo_resposta_ms,
    mensagem_erro)]. *)
Record check_result : Type := mk_check
  { success : bool; response_time : Q; error_msg : option string }.

(** [@dataclass MonitorStats]. *)
Record MonitorStats : Type := mk_stats
  { total_checks : Z;
    successful_checks : Z;
    failed_checks : Z;
    response_times : list Q;
    downtime_events : list string;
    start_time : Q }.

(** [MonitorStats()] followed by [__post_init__]; [now] is [time.time()]. *)
Definition new_stats (now : Q) : MonitorStats :=
  mk_stats 0 0 0 [] [] now.

(** The immutable attributes of a [ServiceMonitor]. *)
Record config : Type := mk_config
  { target : string;
    check_type : string;
    interval : Q;
    timeout : Q;
    threshold : Q;
    log_file : option string;
    verify_ssl : bool }.

(** Its mutable attributes. *)
Record monitor : Type := mk_monitor
  { stats : MonitorStats; running : bool }.

(** [ServiceMonitor.__init__]. *)
Definition new_monitor (now : Q) : monitor := mk_monitor (new_stats now) true.

(** The three states of the status line. *)
Inductive verdict : Type := UP | SLOW | DOWN.

(** What [_print_status] shows after the label; numbers are kept as numbers,
    their rendering belongs to the terminal. *)
Inductive details : Type :=
| DetailsUp (rt : Q)                          (* "({rt:.2f}ms)" *)
| DetailsSlow (rt thr : Q)                    (* "({rt:.2f}ms > {thr}ms threshold)" *)
| DetailsDown (text : string) (after : option Q).
                                              (* text [+ " (após {rt:.2f}ms)"] *)

Inductive log_message : Type :=
| LogDowntime (text : string) (after : option Q)   (* "DOWNTIME: {details}" *)
| LogCheck (status : string) (rt : Q) (text : string).
                                              (* "{status}: {rt:.2f}ms - {text}" *)

(** What [_print_statistics] prints. *)
Record summary : Type := mk_summary
  { sum_duration : Q;
    sum_total : Z;
    sum_successful : Z;
    sum_failed : Z;
    sum_uptime : Q;
    (* mean, median, min, max; printed only when there are samples *)
    sum_latency : option (Q * Q * Q * Q);
    (* number of events, the first five, the count of the remainder *)
    sum_downtime : option (Z * list string * option Z);
    sum_log_file : option string }.

(** Everything observable that the process does. *)
Inductive event : Type :=
| IoHttpGet (url : string) (tmo : Q) (verify : bool)
| IoSocketOpen
| IoSocketSetTimeout (tmo : Q)
| IoSocketConnect (host : string) (port : Z)
| IoSocketClose
| IoPing (argv : list string) (tmo : Q)
| OutBanner
| OutInterrupt
| OutStatus (ts : string) (v : verdict) (d : details)
| OutLog (ts : string) (msg : log_message)
| OutSleep (seconds : Q)
| OutSummary (s : summary).

(* ------------------------------------------------------------------------- *)
(** ** The [io] monad: methods that do not touch [self.stats]/[self.running] *)

Definition io (A : Type) : Type := (list event * result A)%type.

Definition ret {A} (a : A) : io A := ([], Ok a).
Definition raise {A} (e : exn) : io A := ([], Raise e).
Definition emit (ev : event) : io unit := ([ev], Ok tt).
Definition lift {A} (r : result A) : io A := ([], r).

Definition bind {A B} (m : io A) (k : A -> io B) : io B :=
  match m with
  | (tr, Ok a) => let '(tr', r) := k a in ((tr ++ tr')%list, r)
  | (tr, Raise e) => (tr, Raise e)
  end.

(** [try: m] / [except ... as e: h e] *)
Definition try_except {A} (m : io A) (h : exn -> io A) : io A :=
  match m with
  | (tr, Ok a) => (tr, Ok a)
  | (tr, Raise e) => let '(tr', r) := h e in ((tr ++ tr')%list, r)
  end.

Declare Scope io_scope.
Delimit Scope io_scope with io.
Notation "x <- m ;; k" := (bind m (fun x => k))
  (at level 100, m at next level, right associativity) : io_scope.
Notation "m ;;; k" := (bind m (fun _ => k))
  (at level 100, right associativity) : io_scope.
Local Open Scope io_scope.

(* ------------------------------------------------------------------------- *)
(** ** The outside world during one loop iteration *)

Inductive clock_point : Type :=
| AtEvent          (* [datetime.now()] of the downtime event in [run] *)
| AtStatus         (* [datetime.now()] of [_print_status] *)
| AtDowntimeLog    (* [datetime.now()] of the DOWNTIME log line *)
| AtCheckLog.      (* [datetime.now()] of the per-check log line *)

(** Where in the iteration a SIGINT can be delivered. *)
Inductive sig_point : Type :=
| SigInProbe | SigInRecord | SigInReport | SigInSleep.

Record world : Type := mk_world
  { (* (time.perf_counter() - start_time) * 1000 around the external call *)
    w_elapsed_ms : Q;
    (* requests.get(url, timeout, verify): the status code, or an exception *)
    w_http_get : string -> Q -> bool -> result Z;
    (* socket.socket(AF_INET, SOCK_STREAM) *)
    w_socket : result unit;
    (* sock.connect_ex((host, port)) *)
    w_connect_ex : string -> Z -> result Z;
    (* platform.system().lower() == 'windows' *)
    w_is_windows : bool;
    (* subprocess.run(argv, timeout): return code and stdout.decode() *)
    w_ping : list string -> Q -> result (Z * result string);
    (* float(text) *)
    w_float : string -> result Q;
    (* the formatted, millisecond-truncated datetime.now() *)
    w_now : clock_point -> string;
    (* opening and appending to the log file *)
    w_log_write : result unit;
    (* whether SIGINT arrives at the given point of this iteration *)
    w_sigint : sig_point -> bool;
    (* sock.settimeout(seconds): refuses a negative or too large value *)
    w_settimeout : Q -> result unit;
    (* time.sleep(seconds): refuses a negative or too large value *)
    w_sleep : Q -> result unit;
    (* int() and str.isdigit() of the interpreter *)
    w_builtins : builtins }.

(* ------------------------------------------------------------------------- *)
(** ** [ServiceMonitor]: logging and the three probers *)

(** [_log]: appends a line when a log file is configured. *)
Definition _log (cfg : config) (w : world) (at_ : clock_point)
    (message : log_message) : io unit :=
  if str_truthy (log_file cfg)
  then (lift (w_log_write w) ;;; emit (OutLog (w_now w at_) message))
  else ret tt.

(** [_check_http] *)
Definition _check_http (cfg : config) (w : world) : io check_result :=
  try_except
    (emit (IoHttpGet (target cfg) (timeout cfg) (verify_ssl cfg)) ;;;
     status_code <- lift (w_http_get w (target cfg) (timeout cfg) (verify_ssl cfg)) ;;
     let elapsed_ms := w_elapsed_ms w in
     if (200 <=? status_code) && (status_code <? 400)
     then ret (mk_check true elapsed_ms None)
     else ret (mk_check false elapsed_ms (Some ("HTTP " ++ str_of_Z status_code))))
    (fun e =>
       if is_requests_Timeout e then
         let elapsed_ms := (timeout cfg * 1000)%Q in
         ret (mk_check false elapsed_ms (Some "Timeout"))
       else if is_requests_ConnectionError e then
         ret (mk_check false 0%Q (Some ("Connection Error: " ++ exn_str e)))
       else
         ret (mk_check false 0%Q (Some ("Error: " ++ exn_str e)))).

(** [_check_tcp] *)
Definition _check_tcp (cfg : config) (w : world) : io check_result :=
  try_except
    (if str_in ":" (target cfg) then
       match rsplit1 ":" (target cfg) with
       | [host; port] =>
           port <- lift (py_int (w_builtins w) port) ;;
           emit IoSocketOpen ;;;
           lift (w_socket w) ;;;
           emit (IoSocketSetTimeout (timeout cfg)) ;;;
           lift (w_settimeout w (timeout cfg)) ;;;
           emit (IoSocketConnect host port) ;;;
           code <- lift (w_connect_ex w host port) ;;
           let elapsed_ms := w_elapsed_ms w in
           emit IoSocketClose ;;;
           if code =? 0
           then ret (mk_check true elapsed_ms None)
           else ret (mk_check false elapsed_ms
                       (Some ("Connection refused (code: " ++ str_of_Z code ++ ")")))
       | _ =>
           raise (mk_exn ValueError "not enough values to unpack (expected 2, got 1)")
       end
     else
       ret (mk_check false 0%Q (Some "Formato inválido. Use host:porta")))
    (fun e =>
       if is_socket_timeout e then
         let elapsed_ms := (timeout cfg * 1000)%Q in
         ret (mk_check false elapsed_ms (Some "Timeout"))
       else if is_socket_gaierror e then
         ret (mk_check false 0%Q (Some "DNS resolution failed"))
       else
         ret (mk_check false 0%Q (Some ("Error: " ++ exn_str e)))).

(** [_check_icmp] *)
Definition _check_icmp (cfg : config) (w : world) : io check_result :=
  try_except
    (let param := if w_is_windows w then "-n" else "-c" in
     let timeout_param := if w_is_windows w then "-w" else "-W" in
     let argv := ["ping"; param; "1"; timeout_param;
                  str_of_Z (Qtrunc (timeout cfg)); target cfg] in
     emit (IoPing argv (timeout cfg + 1)%Q) ;;;
     res <- lift (w_ping w argv (timeout cfg + 1)%Q) ;;
     let '(returncode, stdout) := res in
     let elapsed_ms := w_elapsed_ms w in
     if returncode =? 0 then
       output <- lift stdout ;;
       parsed <-
         (if str_in "time=" output then
            try_except
              (piece <- lift (py_index (str_split "time=" output) 1) ;;
               time_str <- lift (py_index (str_split_ws piece) 0) ;;
               actual_time <- lift (w_float w (str_remove "ms" time_str)) ;;
               ret (Some (mk_check true actual_time None)))
              (fun _ => ret None)
          else ret None) ;;
       match parsed with
       | Some r => ret r
       | None => ret (mk_check true elapsed_ms None)
       end
     else
       ret (mk_check false elapsed_ms (Some "Host unreachable")))
    (fun e =>
       if is_TimeoutExpired e then
         ret (mk_check false (timeout cfg * 1000)%Q (Some "Timeout"))
       else
         ret (mk_check false 0%Q (Some ("Error: " ++ exn_str e)))).

(** [_check_service] *)
Definition _check_service (cfg : config) (w : world) : io check_result :=
  if String.eqb (check_type cfg) "http" then _check_http cfg w
  else if String.eqb (check_type cfg) "tcp" then _check_tcp cfg w
  else if String.eqb (check_type cfg) "icmp" then _check_icmp cfg w
  else raise (mk_exn ValueError
                ("Tipo de verificação inválido: " ++ check_type cfg)).

(** [_print_status] *)
Definition _print_status (cfg : config) (w : world) (r : check_result) : io unit :=
  let timestamp := w_now w AtStatus in
  if success r then
    if Qgtb (response_time r) (threshold cfg)
    then emit (OutStatus timestamp SLOW
                 (DetailsSlow (response_time r) (threshold cfg)))
    else emit (OutStatus timestamp UP (DetailsUp (response_time r)))
  else
    let text := str_or (error_msg r) "Unknown error" in
    let after := if Qgtb (response_time r) 0 then Some (response_time r) else None in
    emit (OutStatus timestamp DOWN (DetailsDown text after)) ;;;
    _log cfg w AtDowntimeLog (LogDowntime text after).

(* ------------------------------------------------------------------------- *)
(** ** [MonitorStats] methods and [_print_statistics] *)

Definition get_uptime_percentage (st : MonitorStats) : result Q :=
  if total_checks st =? 0 then Ok 0%Q
  else match py_truediv (successful_checks st) (total_checks st) with
       | Ok q => Ok (q * 100)%Q
       | Raise e => Raise e
       end.

Definition get_avg_response_time (st : MonitorStats) : result Q :=
  match response_times st with
  | [] => Ok 0%Q
  | _ => statistics_mean (response_times st)
  end.

Definition get_median_response_time (st : MonitorStats) : result Q :=
  match response_times st with
  | [] => Ok 0%Q
  | _ => statistics_median (response_times st)
  end.

(** [_print_statistics]; [now] is the [time.time()] it reads. *)
Definition _print_statistics (cfg : config) (now : Q) (st : MonitorStats) : io unit :=
  uptime <- lift (get_uptime_percentage st) ;;
  avg_time <- lift (get_avg_response_time st) ;;
  median_time <- lift (get_median_response_time st) ;;
  let duration := (now - start_time st)%Q in
  latency <-
    (match response_times st with
     | [] => ret None
     | _ =>
         lo <- lift (py_min (response_times st)) ;;
         hi <- lift (py_max (response_times st)) ;;
         ret (Some (avg_time, median_time, lo, hi))
     end) ;;
  let n := Z.of_nat (List.length (downtime_events st)) in
  let downtime :=
    match downtime_events st with
    | [] => None
    | _ => Some (n, firstn 5 (downtime_events st),
                 if n >? 5 then Some (n - 5) else None)
    end in
  emit (OutSummary
          (mk_summary duration (total_checks st) (successful_checks st)
             (failed_checks st) uptime latency downtime
             (if str_truthy (log_file cfg) then log_file cfg else None))).

(* ------------------------------------------------------------------------- *)
(** ** The [run] loop *)

(** Code that also reads or writes [self.stats] and [self.running]. *)
Definition mon (A : Type) : Type := monitor -> (list event * monitor * result A)%type.

Definition mret {A} (a : A) : mon A := fun m => ([], m, Ok a).

Definition mbind {A B} (c : mon A) (k : A -> mon B) : mon B :=
  fun m =>
    match c m with
    | (tr, m', Ok a) => let '(tr', m'', r) := k a m' in ((tr ++ tr')%list, m'', r)
    | (tr, m', Raise e) => (tr, m', Raise e)
    end.

Definition liftio {A} (c : io A) : mon A := fun m => (fst c, m, snd c).

Definition modify_stats (f : MonitorStats -> MonitorStats) : mon unit :=
  fun m => ([], mk_monitor (f (stats m)) (running m), Ok tt).

Declare Scope mon_scope.
Delimit Scope mon_scope with mon.
Notation "x <- c ;; k" := (mbind c (fun x => k))
  (at level 100, c at next level, right associativity) : mon_scope.
Notation "c ;;; k" := (mbind c (fun _ => k))
  (at level 100, right associativity) : mon_scope.

(** [_signal_handler]: prints a notice and clears [self.running]. *)
Definition _signal_handler : mon unit :=
  fun m => ([OutInterrupt], mk_monitor (stats m) false, Ok tt).

(** A SIGINT that arrives at point [p] runs the handler there; the interrupted
    call is resumed afterwards, since the handler returns normally. *)
Definition deliver (w : world) (p : sig_point) : mon unit :=
  if w_sigint w p then _signal_handler else mret tt.

(** The bookkeeping of one check (the body of [run] between the probe and
    [_print_status]); [now] is the formatted [datetime.now()]. *)
Definition record_check (now : string) (r : check_result) (st : MonitorStats)
    : MonitorStats :=
  let total := total_checks st + 1 in
  if success r then
    mk_stats total (successful_checks st + 1) (failed_checks st)
      (response_times st ++ [response_time r]) (downtime_events st)
      (start_time st)
  else
    let downtime_event := now ++ " - " ++ fmt_optional_str (error_msg r) in
    mk_stats total (successful_checks st) (failed_checks st + 1)
      (response_times st) (downtime_events st ++ [downtime_event])
      (start_time st).

(** One pass through the body of [while self.running].  A SIGINT that
    arrives while the probe is in flight runs the handler in the middle of
    the probe; the handler touches only [running] and the terminal, and the
    probe goes on where it was, so the delivery is written ahead of the
    probe's own actions.  The other delivery points lie between the
    statements that follow and inside [time.sleep].  [OutSleep] is the call
    of [time.sleep]; when the call refuses its argument the exception leaves
    the loop body. *)
Definition iteration (cfg : config) (w : world) : mon unit :=
  (deliver w SigInProbe ;;;
   r <- liftio (_check_service cfg w) ;;
   modify_stats (record_check (w_now w AtEvent) r) ;;;
   deliver w SigInRecord ;;;
   liftio (_print_status cfg w r) ;;;
   let log_status := if success r then "SUCCESS" else "FAILURE" in
   liftio (_log cfg w AtCheckLog
             (LogCheck log_status (response_time r) (str_or (error_msg r) "OK"))) ;;;
   deliver w SigInReport ;;;
   liftio (emit (OutSleep (interval cfg))) ;;;
   liftio (lift (w_sleep w (interval cfg))) ;;;
   deliver w SigInSleep)%mon.

(** How far the loop got over the iterations that were observed. *)
Inductive loop_status : Type :=
| LoopExited       (* [self.running] was found false at the top *)
| LoopRunning.     (* still running when the observed iterations ran out *)

(** [while self.running: ...], over the worlds of the successive iterations. *)
Fixpoint while_running (cfg : config) (ws : list world) : mon loop_status :=
  fun m =>
    if running m then
      match ws with
      | [] => ([], m, Ok LoopRunning)
      | w :: ws' => mbind (iteration cfg w) (fun _ => while_running cfg ws') m
      end
    else ([], m, Ok LoopExited).

(** [run]: the banner, then [try: while ... finally: _print_statistics()].
    [now] is the [time.time()] read by [_print_statistics].  The [finally]
    block runs when the loop is left, normally or by an exception; an
    exception raised by the block itself replaces the pending one. *)
Definition run (cfg : config) (now : Q) (ws : list world) : mon loop_status :=
  fun m =>
    match while_running cfg ws m with
    | (tr, m', Ok LoopRunning) => ((OutBanner :: tr)%list, m', Ok LoopRunning)
    | (tr, m', r) =>
        match _print_statistics cfg now (stats m') with
        | (tr', Ok _) => ((OutBanner :: tr ++ tr')%list, m', r)
        | (tr', Raise e) => ((OutBanner :: tr ++ tr')%list, m', Raise e)
        end
    end.

(** The statistics after the checks of the iterations [ws], as [run] keeps
    them: every check that returns is recorded, in order; a check that
    raises records nothing. *)
Definition record_world (cfg : config) (st : MonitorStats) (w : world)
    : MonitorStats :=
  match snd (_check_service cfg w) with
  | Ok r => record_check (w_now w AtEvent) r st
  | Raise _ => st
  end.

Definition replay (cfg : config) (ws : list world) (st : MonitorStats)
    : MonitorStats :=
  fold_left (record_world cfg) ws st.

(** The check results the iterations [ws] produce, those that return. *)
Fixpoint check_results (cfg : config) (ws : list world) : list check_result :=
  match ws with
  | [] => []
  | w :: ws' =>
      match snd (_check_service cfg w) with
      | Ok r => r :: check_results cfg ws'
      | Raise _ => check_results cfg ws'
      end
  end.

(** Observers on a run: the summaries printed, the verdicts shown, and
    whether [run] has come to its end. *)
Definition is_summary (ev : event) : bool :=
  match ev with OutSummary _ => true | _ => false end.

Definition summaries (tr : list event) : list event := filter is_summary tr.

Fixpoint verdicts (tr : list event) : list verdict :=
  match tr with
  | [] => []
  | OutStatus _ v _ :: tr' => v :: verdicts tr'
  | _ :: tr' => verdicts tr'
  end.

Definition exited (r : result loop_status) : bool :=
  match r with
  | Ok LoopRunning => false
  | _ => true
  end.

(** The actions of a probe are network and subprocess actions only. *)
Definition is_io (ev : event) : bool :=
  match ev with
  | IoHttpGet _ _ _ | IoSocketOpen | IoSocketSetTimeout _
  | IoSocketConnect _ _ | IoSocketClose | IoPing _ _ => true
  | _ => false
  end.

(** A failed check that says why: the error text is present and not empty. *)
Definition failure_has_text (r : check_result) : Prop :=
  success r = false -> exists text, error_msg r = Some text /\ text <> "".

(** The invariant of the running statistics. *)
Definition stats_inv (st : MonitorStats) : Prop :=
  total_checks st = successful_checks st + failed_checks st /\
  Z.of_nat (List.length (response_times st)) = successful_checks st /\
  Z.of_nat (List.length (downtime_events st)) = failed_checks st.

(** The protocol selectors [_check_service] knows. *)
Definition known_check_type (cfg : config) : Prop :=
  check_type cfg = "http" \/ check_type cfg = "tcp" \/ check_type cfg = "icmp".

(** Projections of the triple a [mon] computation returns. *)
Definition trace_of {A} (x : list event * monitor * result A) : list event :=
  fst (fst x).
Definition monitor_of {A} (x : list event * monitor * result A) : monitor :=
  snd (fst x).
Definition result_of {A} (x : list event * monitor * result A) : result A :=
  snd x.

(* ------------------------------------------------------------------------- *)
(** ** Sample configurations and worlds *)

Definition sample_http : config :=
  mk_config "http://example.com" "http" 1%Q 5%Q 100%Q None true.

Definition sample_tcp : config :=
  mk_config "example.com:5432" "tcp" 1%Q 5%Q 100%Q (Some "monitor.log") true.

Definition sample_tcp_bad_port : config :=
  mk_config "example.com:http" "tcp" 1%Q 5%Q 100%Q None true.

Definition sample_tcp_no_port : config :=
  mk_config "no-port-here" "tcp" 1%Q 5%Q 100%Q None true.

Definition sample_udp : config :=
  mk_config "example.com" "udp" 1%Q 5%Q 100%Q None true.

(** An interpreter with the default digit limit; its answers on text that
    is not ASCII are not used by the samples. *)
Definition sample_builtins : builtins :=
  mk_builtins 4300
    (fun _ => inr "invalid literal for int() with base 10") (fun _ => false).

(** A world in which every external call succeeds after 20 ms; [reply] is the
    answer of the HTTP library and [sig] the arrival of SIGINT. *)
Definition sample_world (reply : result Z) (sig : sig_point -> bool) : world :=
  mk_world 20%Q (fun _ _ _ => reply) (Ok tt) (fun _ _ => Ok 0) false
    (fun _ _ => Ok (0, Ok "64 bytes from 1.1.1.1: icmp_seq=1 ttl=57 time=12.5 ms"))
    (fun _ => Ok 12.5%Q) (fun _ => "2024-05-01 10:00:00.000") (Ok tt) sig
    (fun _ => Ok tt) (fun _ => Ok tt) sample_builtins.

Definition no_sigint (p : sig_point) : bool := false.

Definition sigint_in_probe (p : sig_point) : bool :=
  match p with SigInProbe => true | _ => false end.

Definition quiet_world : world := sample_world (Ok 200) no_sigint.

Definition interrupted_world : world :=
  sample_world (Raise (mk_exn RequestsConnectionError "connection reset"))
    sigint_in_probe.

(* ------------------------------------------------------------------------- *)
(** ** [main]: from the parsed command line to the monitor *)

(** [l[-1]], raising [IndexError] on an empty list. *)
Definition py_last {A} (l : list A) : result A :=
  match rev l with
  | a :: _ => Ok a
  | [] => Raise (mk_exn IndexError "list index out of range")
  end.

(** [t.startswith(('http://', 'https://'))] *)
Definition has_scheme (t : string) : bool :=
  String.prefix "http://" t || String.prefix "https://" t.

(** The namespace [parser.parse_args()] returns. *)
Record arguments : Type := mk_args
  { arg_target : string;
    arg_type : string;
    arg_interval : Q;
    arg_timeout : Q;
    arg_threshold : Q;
    arg_log_file : option string;
    arg_no_verify : bool }.

(** How [main] stands before [monitor.run()]: [sys.exit(code)] after an
    error message, or a [ServiceMonitor] built from [cfg]; [Uncaught] is an
    exception raised before that. *)
Inductive main_outcome : Type :=
| SysExit (code : Z)
| Monitor (cfg : config)
| Uncaught (e : exn).

(** [main] from [parse_args] to the construction of the monitor: the two
    validations, the detection of a TCP target, the [http://] prefix. *)
Definition main_setup (b : builtins) (a : arguments) : main_outcome :=
  if Qgtb (1 # 1000) (arg_interval a) then SysExit 1
  else if Qle_bool (arg_timeout a) 0 then SysExit 1
  else
    let detected :=
      if String.eqb (arg_type a) "http" && negb (has_scheme (arg_target a)) then
        if str_in ":" (arg_target a) then
          match py_last (str_split ":" (arg_target a)) with
          | Ok piece => Ok (if str_isdigit b piece then "tcp" else arg_type a)
          | Raise e => Raise e
          end
        else Ok (arg_type a)
      else Ok (arg_type a) in
    match detected with
    | Raise e => Uncaught e
    | Ok type =>
        let target :=
          if String.eqb type "http" && negb (has_scheme (arg_target a))
          then "http://" ++ arg_target a
          else arg_target a in
        Monitor (mk_config target type (arg_interval a) (arg_timeout a)
                   (arg_threshold a) (arg_log_file a) (negb (arg_no_verify a)))
    end.

(** How [main] ends: by [sys.exit(code)], or with the end of
    [monitor.run()], whose exception, if any, leaves [main]. *)
Inductive main_end : Type :=
| EndExit (code : Z)
| EndRun (r : result loop_status).

(** [main]: the setup, then [monitor.run()].  [started] is the
    [time.time()] read when the monitor is built, [now] the one read by the
    final statistics, [ws] the worlds of the iterations. *)
Definition main (b : builtins) (a : arguments) (started now : Q)
    (ws : list world) : list event * main_end :=
  match main_setup b a with
  | SysExit code => ([], EndExit code)
  | Uncaught e => ([], EndRun (Raise e))
  | Monitor cfg =>
      let '(tr, _, r) := run cfg now ws (new_monitor started) in
      (tr, EndRun r)
  end.

(** The values [argparse] lets through for [--type]. *)
Definition type_choice (a : arguments) : Prop :=
  arg_type a = "http" \/ arg_type a = "tcp" \/ arg_type a = "icmp".

(** More observers on a trace. *)
Fixpoint sleeps (tr : list event) : list Q :=
  match tr with
  | [] => []
  | OutSleep s :: tr' => s :: sleeps tr'
  | _ :: tr' => sleeps tr'
  end.

Fixpoint log_lines (tr : list event) : list log_message :=
  match tr with
  | [] => []
  | OutLog _ msg :: tr' => msg :: log_lines tr'
  | _ :: tr' => log_lines tr'
  end.

Fixpoint status_lines (tr : list event) : list (verdict * details) :=
  match tr with
  | [] => []
  | OutStatus _ v d :: tr' => (v, d) :: status_lines tr'
  | _ :: tr' => status_lines tr'
  end.

(** The command line of the ping subprocess. *)
Definition ping_argv (cfg : config) (w : world) : list string :=
  ["ping"; if w_is_windows w then "-n" else "-c"; "1";
   if w_is_windows w then "-w" else "-W";
   str_of_Z (Qtrunc (timeout cfg)); target cfg].

(** Sample command lines. *)
Definition sample_args (tgt type : string) : arguments :=
  mk_args tgt type 1%Q 5%Q 100%Q None false.

(* ------------------------------------------------------------------------- *)
(** * Reasoning about [io] and [mon] computations *)

(** [io_partial P c]: if [c] returns, its value satisfies [P].
    [io_total P c]: [c] returns, with a value that satisfies [P].
    [io_quiet F c]: every action of [c] satisfies [F]. *)
Definition io_partial {A} (P : A -> Prop) (c : io A) : Prop :=
  forall a, snd c = Ok a -> P a.

Definition io_total {A} (P : A -> Prop) (c : io A) : Prop :=
  exists a, snd c = Ok a /\ P a.

Definition io_quiet {A} (F : event -> bool) (c : io A) : Prop :=
  forallb F (fst c) = true.


Section IoRules.
Context {A B : Type}.
Variables (P : A -> Prop) (R : B -> Prop) (F : event -> bool).

Lemma partial_ret (a : A) : P a -> io_partial P (ret a).
Proof. intros H x E. injection E as <-. exact H. Qed.

Lemma partial_raise (e : exn) : io_partial P (raise e).
Proof. intros x E. discriminate E. Qed.

Lemma partial_bind (m : io A) (k : A -> io B) :
  (forall a, io_partial R (k a)) -> io_partial R (bind m k).
Proof.
  intros Hk b. unfold bind. destruct m as [tr [a|e]]; simpl.
  - specialize (Hk a). destruct (k a) as [tr' r]. simpl in *. apply Hk.
  - discriminate.
Qed.

Lemma partial_bind_post (m : io A) (k : A -> io B) :
  io_partial P m -> (forall a, P a -> io_partial R (k a)) -> io_partial R (bind m k).
Proof.
  intros Hm Hk b. unfold bind. destruct m as [tr [a|e]]; simpl.
  - specialize (Hk a (Hm a eq_refl)). destruct (k a) as [tr' r]. simpl in *. apply Hk.
  - discriminate.
Qed.

Lemma partial_try (m : io A) (h : exn -> io A) :
  io_partial P m -> (forall e, io_partial P (h e)) -> io_partial P (try_except m h).
Proof.
  intros Hm Hh a. unfold try_except. destruct m as [tr [x|e]]; simpl.
  - apply Hm.
  - specialize (Hh e). destruct (h e) as [tr' r]. simpl in *. apply Hh.
Qed.

Lemma total_ret (a : A) : P a -> io_total P (ret a).
Proof. intros H. exists a. split; [reflexivity | exact H]. Qed.

Lemma total_try (m : io A) (h : exn -> io A) :
  io_partial P m -> (forall e, io_total P (h e)) -> io_total P (try_except m h).
Proof.
  intros Hm Hh. unfold try_except. destruct m as [tr [a|e]].
  - exists a. split; [reflexivity | apply Hm; reflexivity].
  - destruct (Hh e) as (a & Ea & Pa). destruct (h e) as [tr' r]. simpl in *.
    exists a. split; assumption.
Qed.

Lemma total_partial (m : io A) : io_total P m -> io_partial P m.
Proof. intros (a & Ea & Pa) x Ex. rewrite Ea in Ex. injection Ex as <-. exact Pa. Qed.

Lemma quiet_ret (a : A) : io_quiet F (ret a).
Proof. reflexivity. Qed.

Lemma quiet_raise (e : exn) : io_quiet F (@raise A e).
Proof. reflexivity. Qed.

Lemma quiet_lift (r : result A) : io_quiet F (lift r).
Proof. reflexivity. Qed.

Lemma quiet_bind (m : io A) (k : A -> io B) :
  io_quiet F m -> (forall a, io_quiet F (k a)) -> io_quiet F (bind m k).
Proof.
  unfold io_quiet, bind. intros Hm Hk. destruct m as [tr [a|e]]; simpl in *.
  - specialize (Hk a). destruct (k a) as [tr' r]. simpl in *.
    rewrite forallb_app, Hm, Hk. reflexivity.
  - exact Hm.
Qed.

Lemma quiet_try (m : io A) (h : exn -> io A) :
  io_quiet F m -> (forall e, io_quiet F (h e)) -> io_quiet F (try_except m h).
Proof.
  unfold io_quiet, try_except. intros Hm Hh. destruct m as [tr [a|e]]; simpl in *.
  - exact Hm.
  - specialize (Hh e). destruct (h e) as [tr' r]. simpl in *.
    rewrite forallb_app, Hm, Hh. reflexivity.
Qed.

End IoRules.

Lemma quiet_emit (F : event -> bool) (ev : event) :
  F ev = true -> io_quiet F (emit ev).
Proof. intros H. unfold io_quiet. simpl. rewrite H. reflexivity. Qed.

(** Splits the goal along the control flow of the code under scrutiny. *)
Ltac branch :=
  match goal with
  | |- context [if ?b then _ else _] => destruct b eqn:?
  | |- context [match ?x with _ => _ end] => destruct x eqn:?
  end.

Ltac quiet_step :=
  first
    [ apply quiet_ret | apply quiet_raise | apply quiet_lift
    | apply quiet_emit; reflexivity
    | apply quiet_bind; [| intros]
    | apply quiet_try; [| intros]
    | progress branch ].

Lemma check_http_quiet cfg w : io_quiet is_io (_check_http cfg w).
Proof. unfold _check_http. repeat quiet_step. Qed.

Lemma check_tcp_quiet cfg w : io_quiet is_io (_check_tcp cfg w).
Proof. unfold _check_tcp. repeat quiet_step. Qed.

Lemma check_icmp_quiet cfg w : io_quiet is_io (_check_icmp cfg w).
Proof. unfold _check_icmp. repeat quiet_step. Qed.

Lemma check_service_quiet cfg w : io_quiet is_io (_check_service cfg w).
Proof.
  unfold _check_service.
  repeat branch; auto using check_http_quiet, check_tcp_quiet, check_icmp_quiet.
  apply quiet_raise.
Qed.

(** ** The probers return; their failures carry a text *)

Ltac text_goal :=
  unfold failure_has_text; simpl; intros;
  first [ discriminate
        | eexists; split; [reflexivity | simpl; discriminate] ].

Ltac partial_step :=
  first
    [ apply partial_raise
    | apply partial_ret; text_goal
    | apply partial_bind; intros
    | progress branch ].

Lemma check_http_total cfg w : io_total failure_has_text (_check_http cfg w).
Proof.
  unfold _check_http. apply total_try.
  - repeat partial_step.
  - intros e. repeat branch; apply total_ret; text_goal.
Qed.

Lemma check_tcp_total cfg w : io_total failure_has_text (_check_tcp cfg w).
Proof.
  unfold _check_tcp. apply total_try.
  - repeat partial_step.
  - intros e. repeat branch; apply total_ret; text_goal.
Qed.

Lemma check_icmp_total cfg w : io_total failure_has_text (_check_icmp cfg w).
Proof.
  unfold _check_icmp. apply total_try.
  - do 2 (apply partial_bind; intros). destruct a0 as [returncode stdout].
    branch; [| apply partial_ret; text_goal].
    apply partial_bind; intros output.
    apply partial_bind_post
      with (P := fun o => forall r, o = Some r -> success r = true).
    + branch.
      * apply partial_try; [| intros; apply partial_ret; discriminate].
        do 3 (apply partial_bind; intros).
        apply partial_ret. intros r [= <-]. reflexivity.
      * apply partial_ret. discriminate.
    + intros [r|] Hr; apply partial_ret; [| text_goal].
      intros Hs. rewrite (Hr r eq_refl) in Hs. discriminate Hs.
  - intros e. repeat branch; apply total_ret; text_goal.
Qed.

Lemma known_check_type_dec cfg :
  known_check_type cfg <->
  (String.eqb (check_type cfg) "http" || String.eqb (check_type cfg) "tcp"
   || String.eqb (check_type cfg) "icmp") = true.
Proof.
  unfold known_check_type. rewrite !orb_true_iff, !String.eqb_eq. tauto.
Qed.

Lemma check_service_known cfg w :
  known_check_type cfg -> io_total failure_has_text (_check_service cfg w).
Proof.
  intros H. apply known_check_type_dec in H. unfold _check_service.
  destruct (String.eqb (check_type cfg) "http"); [apply check_http_total|].
  destruct (String.eqb (check_type cfg) "tcp"); [apply check_tcp_total|].
  destruct (String.eqb (check_type cfg) "icmp"); [apply check_icmp_total|].
  discriminate H.
Qed.

Lemma check_service_unknown cfg w :
  ~ known_check_type cfg ->
  _check_service cfg w =
  ([], Raise (mk_exn ValueError ("Tipo de verificação inválido: " ++ check_type cfg))).
Proof.
  intros H. rewrite known_check_type_dec in H. unfold _check_service.
  destruct (String.eqb (check_type cfg) "http"); [exfalso; auto|].
  destruct (String.eqb (check_type cfg) "tcp"); [exfalso; auto|].
  destruct (String.eqb (check_type cfg) "icmp"); [exfalso; auto|].
  reflexivity.
Qed.

(* ------------------------------------------------------------------------- *)
(** * The statistics *)

Lemma record_check_inv now r st :
  stats_inv st -> stats_inv (record_check now r st).
Proof.
  unfold stats_inv, record_check. intros (Ht & Hr & Hd).
  destruct (success r); simpl; rewrite ?length_app; simpl; repeat split; lia.
Qed.

Lemma insert_sorted_length x l :
  List.length (insert_sorted x l) = S (List.length l).
Proof.
  induction l as [|y l IH]; simpl; [reflexivity|].
  destruct (Qle_bool x y); simpl; [reflexivity | now rewrite IH].
Qed.

Lemma sorted_length l : List.length (sorted l) = List.length l.
Proof.
  induction l as [|x l IH]; simpl; [reflexivity|].
  now rewrite insert_sorted_length, IH.
Qed.

Lemma uptime_returns st : exists q, get_uptime_percentage st = Ok q.
Proof.
  unfold get_uptime_percentage, py_truediv.
  destruct (total_checks st =? 0); eauto.
Qed.

Lemma avg_returns st : exists q, get_avg_response_time st = Ok q.
Proof.
  unfold get_avg_response_time, statistics_mean.
  destruct (response_times st); eauto.
Qed.

Lemma median_returns st : exists q, get_median_response_time st = Ok q.
Proof.
  unfold get_median_response_time, statistics_median.
  destruct (response_times st) as [|x l] eqn:E; [eauto|].
  rewrite sorted_length. simpl List.length. cbv beta iota zeta.
  destruct (Nat.odd (S (List.length l))); eauto.
Qed.

(** [_print_statistics] never raises and prints one summary, whose totals are
    those of the statistics it was given. *)
Lemma print_statistics_returns cfg now st :
  exists s,
    _print_statistics cfg now st = ([OutSummary s], Ok tt) /\
    sum_total s = total_checks st /\
    sum_successful s = successful_checks st /\
    sum_failed s = failed_checks st /\
    get_uptime_percentage st = Ok (sum_uptime s).
Proof.
  unfold _print_statistics.
  destruct (uptime_returns st) as [u ->].
  destruct (avg_returns st) as [a ->].
  destruct (median_returns st) as [md ->].
  destruct (response_times st); simpl; eexists; repeat split.
Qed.

(** What the printed summary says of the statistics it was given. *)
Lemma print_statistics_summary cfg now st s :
  _print_statistics cfg now st = ([OutSummary s], Ok tt) ->
  sum_total s = total_checks st /\
  sum_successful s = successful_checks st /\
  sum_failed s = failed_checks st /\
  get_uptime_percentage st = Ok (sum_uptime s) /\
  sum_duration s = (now - start_time st)%Q /\
  (sum_latency s = None <-> response_times st = []) /\
  (sum_downtime s = None <-> downtime_events st = []).
Proof.
  unfold _print_statistics.
  destruct (uptime_returns st) as [u ->].
  destruct (avg_returns st) as [a ->].
  destruct (median_returns st) as [md ->].
  destruct (response_times st) as [|x l] eqn:Er;
    destruct (downtime_events st) as [|ev evs] eqn:Ed;
    cbn -[firstn Z.of_nat List.length Z.gtb Z.sub Qminus];
    intros [= <-]; cbn [sum_total sum_successful sum_failed sum_uptime
                         sum_duration sum_latency sum_downtime];
    repeat (split; [reflexivity|]);
    split; split; intros; (reflexivity || discriminate).
Qed.

(* ------------------------------------------------------------------------- *)
(** * The loop *)

Lemma summaries_app tr1 tr2 : summaries (tr1 ++ tr2) = (summaries tr1 ++ summaries tr2)%list.
Proof. apply filter_app. Qed.

Lemma summaries_io tr : forallb is_io tr = true -> summaries tr = [].
Proof.
  induction tr as [|ev tr IH]; [reflexivity|]. simpl. intros H.
  apply andb_true_iff in H as [Hev Htr]. rewrite (IH Htr).
  destruct ev; simpl in *; try discriminate; reflexivity.
Qed.

(** What one iteration does to the monitor, and what it shows.
    - It prints no summary.
    - [running] is only ever cleared; it is cleared when SIGINT arrives
      while the probe is in flight, and at any other point of an iteration
      that is not cut short by an exception.
    - If the check returns, that check is recorded, once, and the probe's own
      actions are all in the trace; if the check raises, the statistics are
      untouched and the exception leaves the iteration. *)
Lemma iteration_spec cfg w m :
  forall tr m' r, iteration cfg w m = (tr, m', r) ->
    summaries tr = [] /\
    (running m = false -> running m' = false) /\
    (w_sigint w SigInProbe = true -> running m' = false) /\
    (forall p, w_sigint w p = true -> running m' = false \/ exists e, r = Raise e) /\
    (forall trp cr, _check_service cfg w = (trp, Ok cr) ->
       stats m' = record_check (w_now w AtEvent) cr (stats m) /\
       exists tr2,
         tr = ((if w_sigint w SigInProbe then [OutInterrupt] else [])
                 ++ trp ++ tr2)%list) /\
    (forall trp e, _check_service cfg w = (trp, Raise e) ->
       stats m' = stats m /\ r = Raise e).
Proof.
  intros tr m' r.
  pose proof (check_service_quiet cfg w) as Hq.
  unfold io_quiet in Hq.
  destruct (_check_service cfg w) as [trp [cr|e]] eqn:Ecs; simpl in Hq;
    apply summaries_io in Hq.
  - unfold iteration, mbind, liftio, deliver, _signal_handler, mret,
      modify_stats, _print_status, _log, bind, emit, lift, ret.
    rewrite Ecs. cbn beta iota.
    destruct (w_sigint w SigInProbe) eqn:?; cbn beta iota delta [fst snd].
    all: destruct (w_log_write w) as [[]|e].
    all: destruct (w_sleep w (interval cfg)) as [[]|es].
    all: destruct (w_sigint w SigInRecord) eqn:?,
      (w_sigint w SigInReport) eqn:?, (w_sigint w SigInSleep) eqn:?,
      (success cr), (Qgtb (response_time cr) (threshold cfg)),
      (Qgtb (response_time cr) 0), (str_truthy (log_file cfg));
      simpl; intros [= <- <- <-];
      (split; [unfold summaries; simpl; fold (summaries trp);
               rewrite ?summaries_app, ?Hq; reflexivity |]); simpl.
    all: (split; [intros H; (exact H || reflexivity)|]);
      (split; [intros H; (reflexivity || discriminate H)|]);
      (split; [intros p Hp; first [left; reflexivity | right; eexists; reflexivity
                                  | destruct p; congruence] |]);
      (split; [| intros trp0 e0 [=]]);
      intros trp0 cr0 [= <- <-]; (split; [reflexivity|]);
      eexists; rewrite <- ?app_assoc; simpl; reflexivity.
  - unfold iteration, mbind, liftio, deliver, _signal_handler, mret.
    rewrite Ecs.
    destruct (w_sigint w SigInProbe); simpl; intros [= <- <- <-];
      (split; [unfold summaries; simpl; fold (summaries trp);
               rewrite ?summaries_app, ?Hq; reflexivity |]); simpl.
    all: (split; [intros H; (exact H || reflexivity)|]);
      (split; [intros H; (reflexivity || discriminate H)|]);
      (split; [intros p Hp; right; eexists; reflexivity |]);
      (split; [intros trp0 cr0 [=] | intros trp0 e0 [= <- <-]; split; reflexivity]).
Qed.

Lemma while_stopped cfg ws m :
  running m = false -> while_running cfg ws m = ([], m, Ok LoopExited).
Proof. intros H. destruct ws; simpl; rewrite H; reflexivity. Qed.

Lemma while_step cfg w ws m :
  running m = true ->
  while_running cfg (w :: ws) m =
  match iteration cfg w m with
  | (tr, m', Ok _) =>
      let '(tr', m'', r) := while_running cfg ws m' in ((tr ++ tr')%list, m'', r)
  | (tr, m', Raise e) => (tr, m', Raise e)
  end.
Proof. intros H. simpl. rewrite H. reflexivity. Qed.

(** The loop itself prints no summary, keeps the invariant of the statistics,
    and reports [LoopRunning] only with [running] still set. *)
Lemma while_spec cfg ws :
  forall m tr m' r, while_running cfg ws m = (tr, m', r) ->
    summaries tr = [] /\
    (stats_inv (stats m) -> stats_inv (stats m')) /\
    (r = Ok LoopRunning -> running m' = true) /\
    (r = Ok LoopExited -> running m' = false).
Proof.
  induction ws as [|w ws IH]; intros m tr m' r.
  - simpl. destruct (running m) eqn:Hr; intros [= <- <- <-];
      (split; [assumption || reflexivity | split; [auto | split; intros; (assumption || discriminate)]]).
  - destruct (running m) eqn:Hr.
    + rewrite (while_step _ _ _ _ Hr).
      destruct (iteration cfg w m) as [[tr1 m1] r1] eqn:Eit.
      destruct (iteration_spec _ _ _ _ _ _ Eit) as (Hs & _ & _ & _ & Hok & Hraise).
      assert (Hinv : stats_inv (stats m) -> stats_inv (stats m1)).
      { intros Hi. destruct (_check_service cfg w) as [trp [cr|e]].
        - destruct (Hok _ _ eq_refl) as [-> _]. now apply record_check_inv.
        - destruct (Hraise _ _ eq_refl) as [-> _]. exact Hi. }
      destruct r1 as [[]|e].
      * destruct (while_running cfg ws m1) as [[tr2 m2] r2] eqn:Ew.
        destruct (IH _ _ _ _ Ew) as (Hs2 & Hi2 & Hr2 & Hx2).
        intros [= <- <- <-]. rewrite summaries_app, Hs, Hs2. auto.
      * intros [= <- <- <-]. (split; [assumption || reflexivity | split; [auto | split; intros; (assumption || discriminate)]]).
    + rewrite (while_stopped _ _ _ Hr). intros [= <- <- <-].
      (split; [assumption || reflexivity | split; [auto | split; intros; (assumption || discriminate)]]).
Qed.

(** Iterations already observed can be replayed before further ones. *)
Lemma while_app cfg pre ws :
  forall m tr0 m0, while_running cfg pre m = (tr0, m0, Ok LoopRunning) ->
    while_running cfg (pre ++ ws) m =
    let '(tr, m', r) := while_running cfg ws m0 in ((tr0 ++ tr)%list, m', r).
Proof.
  induction pre as [|w pre IH]; intros m tr0 m0.
  - simpl. destruct (running m) eqn:Hr; intros [= <- <-].
    simpl. destruct (while_running cfg ws m) as [[tr m'] r]. reflexivity.
  - destruct (running m) eqn:Hr.
    + rewrite <- app_comm_cons, !(while_step _ _ _ _ Hr).
      destruct (iteration cfg w m) as [[tr1 m1] [[]|e]]; [|discriminate].
      destruct (while_running cfg pre m1) as [[tr2 m2] r2] eqn:Ew.
      intros [= <- <- ->]. rewrite (IH _ _ _ Ew).
      destruct (while_running cfg ws m2) as [[tr m'] r].
      now rewrite app_assoc.
    + rewrite (while_stopped _ _ _ Hr). discriminate.
Qed.

(** [run] wraps the loop: when the loop is left, one summary of the final
    statistics is appended; while it is still running, nothing is. *)
Lemma run_unfold cfg now ws m :
  forall tr m' r, while_running cfg ws m = (tr, m', r) ->
    (r = Ok LoopRunning /\ run cfg now ws m = ((OutBanner :: tr)%list, m', r)) \/
    (r <> Ok LoopRunning /\
     exists s, _print_statistics cfg now (stats m') = ([OutSummary s], Ok tt) /\
               run cfg now ws m = ((OutBanner :: tr ++ [OutSummary s])%list, m', r)).
Proof.
  intros tr m' r E. unfold run. rewrite E.
  destruct (print_statistics_returns cfg now (stats m')) as (s & Es & _).
  destruct r as [[]|e].
  - right. split; [discriminate|]. exists s. rewrite Es. auto.
  - left. auto.
  - right. split; [discriminate|]. exists s. rewrite Es. auto.
Qed.

(* ------------------------------------------------------------------------- *)
(** * The claims *)

Lemma Qgtb_spec x y : Qgtb x y = true <-> (y < x)%Q.
Proof.
  unfold Qgtb. rewrite negb_true_iff, <- not_true_iff_false, Qle_bool_iff.
  split; [apply Qnot_le_lt | apply Qlt_not_le].
Qed.

Lemma run_stats_inv cfg now ws m :
  stats_inv (stats m) -> stats_inv (stats (monitor_of (run cfg now ws m))).
Proof.
  intros Hi. destruct (while_running cfg ws m) as [[tr m'] r] eqn:E.
  destruct (while_spec _ _ _ _ _ _ E) as (_ & Hinv & _).
  destruct (run_unfold cfg now ws m _ _ _ E) as [[_ ->] | [_ (s & _ & ->)]];
    exact (Hinv Hi).
Qed.

(** What an iteration leaves in the statistics: the record of its check. *)
Lemma iteration_records cfg w m :
  stats (monitor_of (iteration cfg w m)) = record_world cfg (stats m) w.
Proof.
  destruct (iteration cfg w m) as [[tr1 m1] r1] eqn:Eit.
  destruct (iteration_spec _ _ _ _ _ _ Eit) as (_ & _ & _ & _ & Hok & Hraise).
  unfold record_world, monitor_of. cbn [fst snd].
  destruct (_check_service cfg w) as [trp [cr|e]]; cbn [snd].
  - exact (proj1 (Hok _ _ eq_refl)).
  - exact (proj1 (Hraise _ _ eq_refl)).
Qed.

(** The statistics the loop ends with are those of the checks of the
    iterations that took place, recorded in order. *)
Lemma while_replay cfg ws : forall m,
  exists k, (k <= List.length ws)%nat /\
    stats (monitor_of (while_running cfg ws m))
    = replay cfg (firstn k ws) (stats m) /\
    (result_of (while_running cfg ws m) = Ok LoopRunning -> k = List.length ws).
Proof.
  induction ws as [|w ws IH]; intros m.
  - exists 0%nat. simpl. destruct (running m); auto.
  - destruct (running m) eqn:Hr.
    + rewrite (while_step _ _ _ _ Hr).
      pose proof (iteration_records cfg w m) as Hrec.
      destruct (iteration cfg w m) as [[tr1 m1] [[]|e]];
        unfold monitor_of in Hrec; cbn [fst snd] in Hrec.
      * destruct (IH m1) as (k & Hk & Hst & Hrun).
        destruct (while_running cfg ws m1) as [[tr2 m2] r2].
        unfold monitor_of, result_of in *. cbn [fst snd] in *.
        exists (S k). split; [simpl; lia|]. split.
        -- rewrite Hst, Hrec. reflexivity.
        -- intros H. simpl. now rewrite (Hrun H).
      * exists 1%nat. unfold monitor_of, result_of. cbn [fst snd].
        split; [simpl; lia|]. split; [rewrite Hrec; reflexivity | discriminate].
    + rewrite (while_stopped _ _ _ Hr). exists 0%nat.
      unfold monitor_of, result_of. cbn [fst snd].
      split; [lia|]. split; [reflexivity | discriminate].
Qed.

Lemma run_monitor cfg now ws m :
  monitor_of (run cfg now ws m) = monitor_of (while_running cfg ws m).
Proof.
  destruct (while_running cfg ws m) as [[tr m'] r] eqn:E.
  destruct (run_unfold cfg now ws m _ _ _ E) as [[_ ->] | [_ (s & _ & ->)]];
    reflexivity.
Qed.

Lemma replay_inv cfg ws : forall st, stats_inv st -> stats_inv (replay cfg ws st).
Proof.
  induction ws as [|w ws IH]; intros st Hi; [exact Hi|].
  apply IH. unfold record_world.
  destruct (snd (_check_service cfg w)); [now apply record_check_inv | exact Hi].
Qed.

(** What the recorded checks leave: one latency sample per success, in
    order, and one downtime event per failure. *)
Lemma replay_contents cfg ws : forall st,
  response_times (replay cfg ws st)
  = (response_times st
     ++ map response_time (filter success (check_results cfg ws)))%list /\
  List.length (downtime_events (replay cfg ws st))
  = (List.length (downtime_events st)
     + List.length (filter (fun r => negb (success r)) (check_results cfg ws)))%nat /\
  total_checks (replay cfg ws st)
  = total_checks st + Z.of_nat (List.length (check_results cfg ws)).
Proof.
  induction ws as [|w ws IH]; intros st.
  - simpl. rewrite app_nil_r. repeat split; lia.
  - cbn [replay fold_left check_results]. fold (replay cfg ws (record_world cfg st w)).
    destruct (IH (record_world cfg st w)) as (H1 & H2 & H3).
    rewrite H1, H2, H3. unfold record_world.
    destruct (snd (_check_service cfg w)) as [r|e]; [|repeat split].
    unfold record_check. destruct (success r) eqn:Es;
      cbn [response_times downtime_events total_checks filter map List.length negb];
      rewrite Es; cbn [negb map List.length];
      rewrite <- ?app_assoc, ?length_app; cbn [app List.length];
      repeat split; lia.
Qed.

(** C1. The statistics of a fresh monitor satisfy the invariant
    [total_checks = successful_checks + failed_checks],
    [len(response_times) = successful_checks] and
    [len(downtime_events) = failed_checks]; recording a check keeps it, a
    successful check (whatever its latency, so SLOW ones too) appending
    exactly its latency sample and a failed one exactly one downtime event.
    The loop records every check it makes: an iteration whose check returns
    leaves the statistics with that check recorded, one whose check raises
    leaves them untouched, so the statistics the loop (and [run]) ends with
    are those of the checks of the iterations that took place, recorded in
    order, with one sample per successful check and one event per failed
    one.  Hence the invariant holds after each of those checks, and of the
    statistics of [run] after any number of iterations. *)
Theorem stats_invariant :
  (forall t0, stats_inv (new_stats t0)) /\
  (forall now r st,
     stats_inv st ->
     stats_inv (record_check now r st) /\
     (success r = true ->
      response_times (record_check now r st)
      = (response_times st ++ [response_time r])%list) /\
     (success r = false ->
      List.length (downtime_events (record_check now r st))
      = S (List.length (downtime_events st)))) /\
  (forall cfg w m trp cr,
     _check_service cfg w = (trp, Ok cr) ->
     stats (monitor_of (iteration cfg w m))
     = record_check (w_now w AtEvent) cr (stats m) /\
     (success cr = true ->
      response_times (stats (monitor_of (iteration cfg w m)))
      = (response_times (stats m) ++ [response_time cr])%list) /\
     (success cr = false ->
      List.length (downtime_events (stats (monitor_of (iteration cfg w m))))
      = S (List.length (downtime_events (stats m))))) /\
  (forall cfg w m trp e,
     _check_service cfg w = (trp, Raise e) ->
     stats (monitor_of (iteration cfg w m)) = stats m) /\
  (forall cfg now ws m,
     stats (monitor_of (run cfg now ws m))
     = stats (monitor_of (while_running cfg ws m)) /\
     exists k, (k <= List.length ws)%nat /\
       stats (monitor_of (while_running cfg ws m))
       = replay cfg (firstn k ws) (stats m) /\
       (result_of (while_running cfg ws m) = Ok LoopRunning ->
        k = List.length ws)) /\
  (forall cfg ws st,
     (stats_inv st -> stats_inv (replay cfg ws st)) /\
     response_times (replay cfg ws st)
     = (response_times st
        ++ map response_time (filter success (check_results cfg ws)))%list /\
     List.length (downtime_events (replay cfg ws st))
     = (List.length (downtime_events st)
        + List.length (filter (fun r => negb (success r))
                         (check_results cfg ws)))%nat /\
     total_checks (replay cfg ws st)
     = total_checks st + Z.of_nat (List.length (check_results cfg ws))) /\
  (forall cfg now t0 ws,
     stats_inv (stats (monitor_of (run cfg now ws (new_monitor t0))))).
Proof.
  assert (H0 : forall t0, stats_inv (new_stats t0)).
  { intros t0. unfold stats_inv. simpl. lia. }
  assert (Hrec : forall now r st,
             (success r = true ->
              response_times (record_check now r st)
              = (response_times st ++ [response_time r])%list) /\
             (success r = false ->
              List.length (downtime_events (record_check now r st))
              = S (List.length (downtime_events st)))).
  { intros now r st. unfold record_check.
    split; intros ->; simpl; [reflexivity|]. rewrite length_app. simpl. lia. }
  split; [exact H0|]. split; [|split; [|split; [|split; [|split]]]].
  - intros now r st Hi. split; [now apply record_check_inv | apply Hrec].
  - intros cfg w m trp cr Ecs.
    pose proof (iteration_records cfg w m) as Hit.
    unfold record_world in Hit. rewrite Ecs in Hit. cbn [snd] in Hit.
    rewrite Hit. split; [reflexivity | apply Hrec].
  - intros cfg w m trp e Ecs.
    pose proof (iteration_records cfg w m) as Hit.
    unfold record_world in Hit. rewrite Ecs in Hit. exact Hit.
  - intros cfg now ws m. rewrite run_monitor. split; [reflexivity|].
    apply while_replay.
  - intros cfg ws st. split; [apply replay_inv | apply replay_contents].
  - intros cfg now t0 ws. apply run_stats_inv. apply H0.
Qed.

Lemma stats_invariant_witness :
  stats_inv (new_stats 0) /\
  stats_inv (record_check "10:00" (mk_check true 250 None) (new_stats 0)) /\
  response_times (record_check "10:00" (mk_check true 250 None) (new_stats 0))
  = [250%Q] /\
  response_times (stats (monitor_of (iteration sample_http quiet_world (new_monitor 0))))
  = [20%Q] /\
  stats_inv (replay sample_http [quiet_world; interrupted_world] (new_stats 0)).
Proof.
  destruct stats_invariant as (H0 & Hrec & Hit & _ & _ & Hrep & _).
  destruct (Hrec "10:00" (mk_check true 250 None) (new_stats 0) (H0 0%Q))
    as (Hi & Hs & _).
  split; [apply H0|]. split; [exact Hi|]. split; [apply Hs; reflexivity|].
  split.
  - destruct (Hit sample_http quiet_world (new_monitor 0)
                [IoHttpGet "http://example.com" 5 true] (mk_check true 20 None)
                eq_refl) as (_ & Hsample & _).
    apply Hsample. reflexivity.
  - apply (proj1 (Hrep sample_http [quiet_world; interrupted_world] (new_stats 0))).
    apply H0.
Defined.

(** C2. The status [_print_status] shows is DOWN when the check did not
    succeed, SLOW when it succeeded with a latency strictly above the
    threshold, and UP otherwise; a latency equal to the threshold gives UP. *)
Theorem status_classification cfg w r :
  (success r = false -> verdicts (fst (_print_status cfg w r)) = [DOWN]) /\
  (success r = true -> (threshold cfg < response_time r)%Q ->
   verdicts (fst (_print_status cfg w r)) = [SLOW]) /\
  (success r = true -> ~ (threshold cfg < response_time r)%Q ->
   verdicts (fst (_print_status cfg w r)) = [UP]) /\
  (success r = true -> (response_time r == threshold cfg)%Q ->
   verdicts (fst (_print_status cfg w r)) = [UP]).
Proof.
  assert (Hup : success r = true -> ~ (threshold cfg < response_time r)%Q ->
                verdicts (fst (_print_status cfg w r)) = [UP]).
  { intros Hs Hn. unfold _print_status. rewrite Hs.
    destruct (Qgtb (response_time r) (threshold cfg)) eqn:E; [|reflexivity].
    apply Qgtb_spec in E. contradiction. }
  repeat split.
  - intros Hs. unfold _print_status, _log. rewrite Hs.
    destruct (str_truthy (log_file cfg)), (w_log_write w); reflexivity.
  - intros Hs Hlt. unfold _print_status. rewrite Hs.
    apply Qgtb_spec in Hlt. rewrite Hlt. reflexivity.
  - exact Hup.
  - intros Hs He. apply Hup; [exact Hs|]. rewrite He. apply Qlt_irrefl.
Qed.

Lemma status_classification_witness :
  verdicts (fst (_print_status sample_http quiet_world (mk_check false 0 (Some "Timeout")))) = [DOWN] /\
  verdicts (fst (_print_status sample_http quiet_world (mk_check true 150 None))) = [SLOW] /\
  verdicts (fst (_print_status sample_http quiet_world (mk_check true 50 None))) = [UP] /\
  verdicts (fst (_print_status sample_http quiet_world (mk_check true 100 None))) = [UP].
Proof.
  split; [|split; [|split]].
  - apply (proj1 (status_classification sample_http quiet_world
                    (mk_check false 0 (Some "Timeout")))). reflexivity.
  - apply (proj1 (proj2 (status_classification sample_http quiet_world
                           (mk_check true 150 None)))); reflexivity.
  - apply (proj1 (proj2 (proj2 (status_classification sample_http quiet_world
                                  (mk_check true 50 None))))).
    + reflexivity.
    + simpl. unfold Qlt. simpl. lia.
  - apply (proj2 (proj2 (proj2 (status_classification sample_http quiet_world
                                  (mk_check true 100 None))))); reflexivity.
Defined.

(** C6. [get_uptime_percentage] returns [0.0] when no check was made, and
    [successful_checks / total_checks * 100] when [total_checks > 0]; it
    returns a number for every statistics record, so it never raises
    [ZeroDivisionError]. *)
Theorem uptime_percentage st :
  (total_checks st = 0 -> get_uptime_percentage st = Ok 0%Q) /\
  (total_checks st > 0 ->
   get_uptime_percentage st
   = Ok (inject_Z (successful_checks st) / inject_Z (total_checks st) * 100)%Q) /\
  (exists q, get_uptime_percentage st = Ok q).
Proof.
  repeat split.
  - intros H. unfold get_uptime_percentage. rewrite H. reflexivity.
  - intros H. unfold get_uptime_percentage, py_truediv.
    destruct (total_checks st =? 0) eqn:E; [|reflexivity].
    apply Z.eqb_eq in E. lia.
  - apply uptime_returns.
Qed.

Lemma uptime_percentage_witness :
  get_uptime_percentage (new_stats 0) = Ok 0%Q /\
  get_uptime_percentage (mk_stats 4 3 1 [10%Q; 20%Q; 30%Q] ["10:00 - Timeout"] 0)
  = Ok (inject_Z 3 / inject_Z 4 * 100)%Q.
Proof.
  split.
  - apply (proj1 (uptime_percentage (new_stats 0))). reflexivity.
  - apply (proj1 (proj2 (uptime_percentage
       (mk_stats 4 3 1 [10%Q; 20%Q; 30%Q] ["10:00 - Timeout"] 0)))).
    simpl. lia.
Defined.

(** C10. Recording a successful check leaves [failed_checks] and
    [downtime_events] as they were; recording a failed check leaves
    [successful_checks] and [response_times] as they were; and no record
    changes [start_time]. *)
Theorem record_check_frame now r st :
  (success r = true ->
   failed_checks (record_check now r st) = failed_checks st /\
   downtime_events (record_check now r st) = downtime_events st) /\
  (success r = false ->
   successful_checks (record_check now r st) = successful_checks st /\
   response_times (record_check now r st) = response_times st) /\
  start_time (record_check now r st) = start_time st.
Proof.
  unfold record_check. destruct (success r); simpl;
    repeat split; intros; auto; discriminate.
Qed.

Lemma record_check_frame_witness :
  failed_checks (record_check "10:00" (mk_check true 20 None)
                   (mk_stats 1 0 1 [] ["09:59 - Timeout"] 7)) = 1 /\
  response_times (record_check "10:00" (mk_check false 0 (Some "Timeout"))
                    (mk_stats 1 1 0 [20%Q] [] 7)) = [20%Q].
Proof.
  split.
  - apply (proj1 (record_check_frame "10:00" (mk_check true 20 None)
                    (mk_stats 1 0 1 [] ["09:59 - Timeout"] 7))). reflexivity.
  - apply (proj1 (proj2 (record_check_frame "10:00"
                           (mk_check false 0 (Some "Timeout"))
                           (mk_stats 1 1 0 [20%Q] [] 7)))). reflexivity.
Defined.

(** Once SIGINT has been delivered, or an exception has left the body, the
    loop does not report [LoopRunning]. *)
Lemma while_cancelled cfg ws :
  forall m, Exists (fun w => exists p, w_sigint w p = true) ws ->
    exited (result_of (while_running cfg ws m)) = true.
Proof.
  induction ws as [|w ws IH]; intros m Hex; [inversion Hex|].
  destruct (running m) eqn:Hr; [| now rewrite (while_stopped _ _ _ Hr)].
  rewrite (while_step _ _ _ _ Hr).
  destruct (iteration cfg w m) as [[tr1 m1] r1] eqn:Eit.
  destruct (iteration_spec _ _ _ _ _ _ Eit) as (_ & _ & _ & Hsig & _).
  destruct r1 as [[]|e]; [|reflexivity].
  inversion Hex as [? ? [p Hp] | ? ? Htl]; subst.
  - destruct (Hsig p Hp) as [Hoff | [e He]]; [|discriminate He].
    now rewrite (while_stopped _ _ _ Hoff).
  - specialize (IH m1 Htl).
    destruct (while_running cfg ws m1) as [[tr2 m2] r2]. exact IH.
Qed.

Lemma run_result cfg now ws m :
  result_of (run cfg now ws m) = result_of (while_running cfg ws m).
Proof.
  destruct (while_running cfg ws m) as [[tr m'] r] eqn:E.
  destruct (run_unfold cfg now ws m _ _ _ E) as [[_ ->] | [_ (s & _ & ->)]];
    reflexivity.
Qed.

(** C3. Whenever [run] comes to its end, by cancellation or by an exception,
    one summary has been printed, exactly once and as the last thing printed,
    and while the loop is still running none has been.  The summary is that
    of the statistics the loop has accumulated, which are those of the checks
    of the iterations that took place: its totals, its uptime, its duration
    and the presence of its latency and downtime blocks are read from them.
    Both ways out do lead there: SIGINT at any point of some iteration, or
    [running] found false at the start, ends [run]; so does the [ValueError]
    of an unknown check type, raised by the first iteration. *)
Theorem summary_on_exit cfg now ws m :
  (exited (result_of (run cfg now ws m)) = true ->
   exists s,
     _print_statistics cfg now (stats (monitor_of (run cfg now ws m)))
     = ([OutSummary s], Ok tt) /\
     summaries (trace_of (run cfg now ws m)) = [OutSummary s] /\
     last (trace_of (run cfg now ws m)) OutBanner = OutSummary s /\
     (exists k, (k <= List.length ws)%nat /\
        stats (monitor_of (while_running cfg ws m))
        = replay cfg (firstn k ws) (stats m)) /\
     stats (monitor_of (run cfg now ws m))
     = stats (monitor_of (while_running cfg ws m)) /\
     sum_total s = total_checks (stats (monitor_of (while_running cfg ws m))) /\
     sum_successful s
     = successful_checks (stats (monitor_of (while_running cfg ws m))) /\
     sum_failed s = failed_checks (stats (monitor_of (while_running cfg ws m))) /\
     get_uptime_percentage (stats (monitor_of (while_running cfg ws m)))
     = Ok (sum_uptime s) /\
     sum_duration s
     = (now - start_time (stats (monitor_of (while_running cfg ws m))))%Q /\
     (sum_latency s = None <->
      response_times (stats (monitor_of (while_running cfg ws m))) = []) /\
     (sum_downtime s = None <->
      downtime_events (stats (monitor_of (while_running cfg ws m))) = [])) /\
  (exited (result_of (run cfg now ws m)) = false ->
   summaries (trace_of (run cfg now ws m)) = []) /\
  (Exists (fun w => exists p, w_sigint w p = true) ws ->
   exited (result_of (run cfg now ws m)) = true) /\
  (running m = false -> result_of (run cfg now ws m) = Ok LoopExited) /\
  (~ known_check_type cfg -> running m = true -> ws <> [] ->
   exists e, result_of (run cfg now ws m) = Raise e /\ exn_cls e = ValueError).
Proof.
  pose proof (while_replay cfg ws m) as (k & Hk & Hrep & _).
  destruct (while_running cfg ws m) as [[tr m'] r] eqn:E.
  destruct (while_spec _ _ _ _ _ _ E) as (Hs & _).
  split; [|split; [|split; [|split]]].
  - destruct (run_unfold cfg now ws m _ _ _ E) as [[-> ->] | [_ (s & Es & ->)]].
    + discriminate.
    + intros _. exists s. unfold trace_of, monitor_of in *. cbn [fst snd] in *.
      split; [exact Es|]. split.
      { change (OutBanner :: tr ++ [OutSummary s])%list
          with ([OutBanner] ++ tr ++ [OutSummary s])%list.
        rewrite !summaries_app, Hs. reflexivity. }
      split.
      { change (OutBanner :: tr ++ [OutSummary s])%list
          with ((OutBanner :: tr) ++ [OutSummary s])%list.
        apply last_last. }
      split; [exists k; split; assumption|]. split; [reflexivity|].
      exact (print_statistics_summary cfg now (stats m') s Es).
  - destruct (run_unfold cfg now ws m _ _ _ E) as [[-> ->] | [Hr (s & Es & ->)]].
    + intros _. exact Hs.
    + unfold result_of. simpl. destruct r as [[]|e]; try discriminate.
      contradiction.
  - intros Hex. rewrite run_result. now apply while_cancelled.
  - intros Hr. rewrite run_result, (while_stopped _ _ _ Hr). reflexivity.
  - intros Hk' Hr Hws. rewrite run_result.
    destruct ws as [|w ws']; [contradiction|].
    rewrite (while_step _ _ _ _ Hr).
    destruct (iteration cfg w m) as [[tr1 m1] r1] eqn:Eit.
    destruct (iteration_spec _ _ _ _ _ _ Eit) as (_ & _ & _ & _ & _ & Hraise).
    destruct (Hraise _ _ (check_service_unknown cfg w Hk')) as [_ ->].
    eexists. split; reflexivity.
Qed.

Lemma summary_on_exit_witness :
  (exists s, summaries (trace_of (run sample_http 60 [quiet_world; interrupted_world; quiet_world]
                                    (new_monitor 0))) = [OutSummary s] /\
             sum_total s = 2 /\ sum_successful s = 1 /\ sum_failed s = 1) /\
  (exists e, result_of (run sample_udp 60 [quiet_world] (new_monitor 0)) = Raise e).
Proof.
  split.
  - destruct (proj1 (summary_on_exit sample_http 60
                       [quiet_world; interrupted_world; quiet_world]
                       (new_monitor 0)))
      as (s & _ & Hs & _ & _ & _ & Ht & Hok & Hf & _).
    + reflexivity.
    + exists s. split; [exact Hs|]. split; [exact Ht|]. split; [exact Hok | exact Hf].
  - destruct (proj2 (proj2 (proj2 (proj2 (summary_on_exit sample_udp 60
                       [quiet_world] (new_monitor 0))))))
      as (e & He & _).
    + unfold known_check_type. simpl. intros [H|[H|H]]; discriminate H.
    + reflexivity.
    + discriminate.
    + exists e. exact He.
Defined.

(** C9. Let the loop be running after the iterations [pre], and let SIGINT
    arrive while the probe of the next iteration is in flight.  Then that
    probe is carried through (all its actions follow the interrupt notice and
    it returns its result), that result is recorded, so [total_checks] grows
    by exactly one, [running] is false afterwards, no later iteration takes
    place, and [run] ends having printed exactly one summary. *)
Theorem cancel_during_probe cfg now pre w post m tr0 m0 :
  known_check_type cfg ->
  while_running cfg pre m = (tr0, m0, Ok LoopRunning) ->
  w_sigint w SigInProbe = true ->
  exists trp cr tr2 s,
    _check_service cfg w = (trp, Ok cr) /\
    stats (monitor_of (run cfg now (pre ++ w :: post) m))
    = record_check (w_now w AtEvent) cr (stats m0) /\
    total_checks (stats (monitor_of (run cfg now (pre ++ w :: post) m)))
    = total_checks (stats m0) + 1 /\
    running (monitor_of (run cfg now (pre ++ w :: post) m)) = false /\
    exited (result_of (run cfg now (pre ++ w :: post) m)) = true /\
    trace_of (run cfg now (pre ++ w :: post) m)
    = (OutBanner :: tr0 ++ OutInterrupt :: trp ++ tr2 ++ [OutSummary s])%list /\
    summaries (trace_of (run cfg now (pre ++ w :: post) m)) = [OutSummary s] /\
    run cfg now (pre ++ w :: post) m = run cfg now (pre ++ [w]) m.
Proof.
  intros Hk Hpre Hsig.
  destruct (check_service_known cfg w Hk) as (cr & Hcr & _).
  destruct (_check_service cfg w) as [trp rc] eqn:Ecs. simpl in Hcr. subst rc.
  destruct (while_spec _ _ _ _ _ _ Hpre) as (Hs0 & _ & Hrun & _).
  specialize (Hrun eq_refl).
  destruct (iteration cfg w m0) as [[tr1 m1] r1] eqn:Eit.
  destruct (iteration_spec _ _ _ _ _ _ Eit) as (Hs1 & _ & Hoff & _ & Hok & _).
  specialize (Hoff Hsig). destruct (Hok _ _ Ecs) as (Hst & tr2 & Htr1).
  rewrite Hsig in Htr1. simpl in Htr1.
  (* the loop over [w :: rest] stops after [w], whatever [rest] is *)
  assert (Hloop : forall rest,
            exists r, r <> Ok LoopRunning /\
              while_running cfg (pre ++ w :: rest) m = ((tr0 ++ tr1)%list, m1, r)).
  { intros rest. rewrite (while_app _ _ _ _ _ _ Hpre), (while_step _ _ _ _ Hrun), Eit.
    destruct r1 as [[]|e].
    - rewrite (while_stopped _ _ _ Hoff), app_nil_r.
      exists (Ok LoopExited). split; [discriminate | reflexivity].
    - exists (Raise e). split; [discriminate | reflexivity]. }
  assert (Hrun_eq : forall rest,
            exists r s, r <> Ok LoopRunning /\
              _print_statistics cfg now (stats m1) = ([OutSummary s], Ok tt) /\
              run cfg now (pre ++ w :: rest) m
              = ((OutBanner :: (tr0 ++ tr1) ++ [OutSummary s])%list, m1, r) /\
              while_running cfg (pre ++ w :: rest) m = ((tr0 ++ tr1)%list, m1, r)).
  { intros rest. destruct (Hloop rest) as (r & Hr & Ew).
    destruct (run_unfold cfg now _ m _ _ _ Ew) as [[Hr' _] | [_ (s & Es & Erun)]];
      [contradiction|].
    exists r, s. auto. }
  destruct (Hrun_eq post) as (r & s & Hr & Es & Erun & Ew).
  destruct (Hrun_eq []) as (r' & s' & _ & Es' & Erun' & Ew').
  exists trp, cr, tr2, s. rewrite Erun. unfold monitor_of, result_of, trace_of.
  cbn [fst snd]. split; [reflexivity|]. split; [exact Hst|]. split.
  { rewrite Hst. unfold record_check. destruct (success cr); reflexivity. }
  split; [exact Hoff|]. split.
  { destruct r as [[]|e]; [reflexivity | contradiction | reflexivity]. }
  split.
  { rewrite Htr1. rewrite <- !app_assoc. simpl. rewrite <- !app_assoc. reflexivity. }
  split.
  { change (OutBanner :: (tr0 ++ tr1) ++ [OutSummary s])%list
      with ([OutBanner] ++ (tr0 ++ tr1) ++ [OutSummary s])%list.
    rewrite !summaries_app, Hs0, Hs1. reflexivity. }
  rewrite Erun'. rewrite Es in Es'. injection Es' as <-.
  f_equal.
  (* the result of the loop is settled by the iteration over [w] *)
  rewrite (while_app _ _ _ _ _ _ Hpre), (while_step _ _ _ _ Hrun), Eit in Ew.
  rewrite (while_app _ _ _ _ _ _ Hpre), (while_step _ _ _ _ Hrun), Eit in Ew'.
  destruct r1 as [[]|e].
  - rewrite (while_stopped _ _ _ Hoff) in Ew. rewrite (while_stopped _ _ _ Hoff) in Ew'.
    congruence.
  - congruence.
Qed.

Lemma cancel_during_probe_witness :
  exists cr s,
    snd (_check_service sample_http interrupted_world) = Ok cr /\
    total_checks (stats (monitor_of
      (run sample_http 60 ([quiet_world] ++ interrupted_world :: [quiet_world])
         (new_monitor 0)))) = 1 + 1 /\
    summaries (trace_of
      (run sample_http 60 ([quiet_world] ++ interrupted_world :: [quiet_world])
         (new_monitor 0))) = [OutSummary s].
Proof.
  destruct (cancel_during_probe sample_http 60 [quiet_world] interrupted_world
              [quiet_world] (new_monitor 0)
              (trace_of (while_running sample_http [quiet_world] (new_monitor 0)))
              (monitor_of (while_running sample_http [quiet_world] (new_monitor 0))))
    as (trp & cr & tr2 & s & Hc & _ & Ht & _ & _ & _ & Hs & _).
  - left. reflexivity.
  - reflexivity.
  - reflexivity.
  - exists cr, s. rewrite Hc. split; [reflexivity|]. split; [exact Ht | exact Hs].
Defined.

(* ------------------------------------------------------------------------- *)
(** * The probers *)

Lemma str_in_cons (a : ascii) (s : string) :
  str_in ":" (String a s) = Ascii.eqb a ":" || str_in ":" s.
Proof.
  cbn [str_in String.prefix].
  destruct (ascii_dec ":" a) as [<-|Hn];
    [rewrite Ascii.eqb_refl; destruct s; reflexivity|].
  destruct (Ascii.eqb_spec a ":") as [->|_]; [contradiction | reflexivity].
Qed.

(** [rsplit1] cuts at the last colon. *)
Lemma rsplit1_colon s :
  (str_in ":" s = true ->
   exists h p, rsplit1 ":" s = [h; p] /\ s = h ++ ":" ++ p /\ str_in ":" p = false) /\
  (str_in ":" s = false -> rsplit1 ":" s = [s]).
Proof.
  induction s as [|a s [IHt IHf]]; [split; [discriminate | reflexivity]|].
  rewrite str_in_cons. cbn [rsplit1].
  destruct (str_in ":" s) eqn:Es.
  - rewrite orb_true_r. split; [intros _ | discriminate].
    destruct (IHt eq_refl) as (h & p & -> & -> & Hp).
    exists (String a h), p. auto.
  - rewrite orb_false_r, (IHf eq_refl).
    destruct (Ascii.eqb_spec a ":") as [->|Hn]; split; try discriminate; auto.
    intros _. exists EmptyString, s. auto.
Qed.

Lemma check_http_success cfg w r :
  snd (_check_http cfg w) = Ok r -> success r = true ->
  exists code,
    w_http_get w (target cfg) (timeout cfg) (verify_ssl cfg) = Ok code /\
    200 <= code < 400.
Proof.
  unfold _check_http, try_except, bind, emit, lift, ret.
  destruct (w_http_get w (target cfg) (timeout cfg) (verify_ssl cfg)) as [code|e].
  - destruct ((200 <=? code) && (code <? 400)) eqn:E; simpl;
      intros [= <-]; simpl; intros Hs; [|discriminate Hs].
    exists code. split; [reflexivity | lia].
  - destruct (is_requests_Timeout e), (is_requests_ConnectionError e); simpl;
      intros [= <-]; discriminate.
Qed.

(** [int] raises nothing but [ValueError]. *)
Lemma py_int_raises b s e : py_int b s = Raise e -> exn_cls e = ValueError.
Proof.
  unfold py_int. destruct (is_ascii s).
  - destruct (parse_int (int_max_str_digits b) s); intros [= <-]; reflexivity.
  - destruct (int_non_ascii b s); intros [= <-]; reflexivity.
Qed.

(** The guarded block of [_check_tcp] for a target cut into [host] and
    [port], as the cases it distinguishes. *)
Lemma check_tcp_cases cfg w host port :
  rsplit1 ":" (target cfg) = [host; port] ->
  _check_tcp cfg w =
  let failure e :=
    if is_socket_timeout e
    then mk_check false (timeout cfg * 1000)%Q (Some "Timeout")
    else if is_socket_gaierror e
         then mk_check false 0%Q (Some "DNS resolution failed")
         else mk_check false 0%Q (Some ("Error: " ++ exn_str e)) in
  match py_int (w_builtins w) port with
  | Raise e => ([], Ok (failure e))
  | Ok n =>
      match w_socket w with
      | Raise e => ([IoSocketOpen], Ok (failure e))
      | Ok _ =>
          match w_settimeout w (timeout cfg) with
          | Raise e =>
              ([IoSocketOpen; IoSocketSetTimeout (timeout cfg)], Ok (failure e))
          | Ok _ =>
              match w_connect_ex w host n with
              | Raise e =>
                  ([IoSocketOpen; IoSocketSetTimeout (timeout cfg);
                    IoSocketConnect host n], Ok (failure e))
              | Ok code =>
                  ([IoSocketOpen; IoSocketSetTimeout (timeout cfg);
                    IoSocketConnect host n; IoSocketClose],
                   Ok (if code =? 0 then mk_check true (w_elapsed_ms w) None
                       else mk_check false (w_elapsed_ms w)
                              (Some ("Connection refused (code: "
                                     ++ str_of_Z code ++ ")"))))
              end
          end
      end
  end.
Proof.
  intros Hsp.
  assert (Hin : str_in ":" (target cfg) = true).
  { destruct (str_in ":" (target cfg)) eqn:E; [reflexivity|].
    rewrite (proj2 (rsplit1_colon (target cfg)) E) in Hsp. discriminate Hsp. }
  unfold _check_tcp. rewrite Hin, Hsp.
  unfold try_except, bind, emit, lift, ret. cbv zeta.
  destruct (py_int (w_builtins w) port) as [n|e]; cbn beta iota.
  2: { destruct (is_socket_timeout e), (is_socket_gaierror e); reflexivity. }
  destruct (w_socket w) as [[]|e]; cbn beta iota.
  2: { destruct (is_socket_timeout e), (is_socket_gaierror e); reflexivity. }
  destruct (w_settimeout w (timeout cfg)) as [[]|e]; cbn beta iota.
  2: { destruct (is_socket_timeout e), (is_socket_gaierror e); reflexivity. }
  destruct (w_connect_ex w host n) as [code|e]; cbn beta iota.
  - destruct (code =? 0); reflexivity.
  - destruct (is_socket_timeout e), (is_socket_gaierror e); reflexivity.
Qed.

Lemma check_tcp_success cfg w r :
  snd (_check_tcp cfg w) = Ok r -> success r = true ->
  exists host port n,
    rsplit1 ":" (target cfg) = [host; port] /\
    py_int (w_builtins w) port = Ok n /\
    w_socket w = Ok tt /\ w_settimeout w (timeout cfg) = Ok tt /\
    w_connect_ex w host n = Ok 0.
Proof.
  destruct (str_in ":" (target cfg)) eqn:Ein.
  - destruct (proj1 (rsplit1_colon (target cfg)) Ein) as (host & port & Hsp & _).
    rewrite (check_tcp_cases cfg w host port Hsp). cbv zeta.
    destruct (py_int (w_builtins w) port) as [n|e] eqn:En.
    2: { destruct (is_socket_timeout e), (is_socket_gaierror e);
           intros [= <-]; discriminate. }
    destruct (w_socket w) as [[]|e] eqn:Es.
    2: { destruct (is_socket_timeout e), (is_socket_gaierror e);
           intros [= <-]; discriminate. }
    destruct (w_settimeout w (timeout cfg)) as [[]|e] eqn:Et.
    2: { destruct (is_socket_timeout e), (is_socket_gaierror e);
           intros [= <-]; discriminate. }
    destruct (w_connect_ex w host n) as [code|e] eqn:Ex.
    2: { destruct (is_socket_timeout e), (is_socket_gaierror e);
           intros [= <-]; discriminate. }
    destruct (code =? 0) eqn:Ec; intros [= <-]; [intros _ | discriminate].
    apply Z.eqb_eq in Ec. subst code. exists host, port, n. auto.
  - unfold _check_tcp. rewrite Ein. simpl. intros [= <-]. discriminate.
Qed.

Lemma check_icmp_success cfg w r :
  snd (_check_icmp cfg w) = Ok r -> success r = true ->
  exists argv out, w_ping w argv (timeout cfg + 1)%Q = Ok (0, Ok out).
Proof.
  unfold _check_icmp.
  set (argv := ["ping"; _; "1"; _; _; target cfg]).
  unfold try_except at 1. unfold bind at 1. unfold emit. unfold bind at 1. unfold lift at 1.
  destruct (w_ping w argv (timeout cfg + 1)%Q) as [[rc out]|e] eqn:Ep.
  - destruct (rc =? 0) eqn:Erc.
    + apply Z.eqb_eq in Erc. subst rc. destruct out as [out|e].
      * intros _ _. exists argv, out. exact Ep.
      * unfold bind, lift. destruct (is_TimeoutExpired e); simpl;
          intros [= <-]; discriminate.
    + simpl. intros [= <-]. discriminate.
  - destruct (is_TimeoutExpired e); simpl; intros [= <-]; discriminate.
Qed.

(** C4. [_check_service] raises exactly when the check type is none of
    [http], [tcp], [icmp].  Each prober always returns a result: whatever
    goes wrong during a check (an exception of the HTTP library, a malformed
    target, a socket error or a non-zero connect code, a failing or timed-out
    ping, undecodable output) ends in a result with [success = False] and an
    error text, because [success = True] is returned only when every external
    step went through. *)
Theorem check_errors_are_results cfg w :
  ((exists e, snd (_check_service cfg w) = Raise e) <-> ~ known_check_type cfg) /\
  (exists r, snd (_check_http cfg w) = Ok r /\ failure_has_text r /\
     (success r = true ->
      exists code,
        w_http_get w (target cfg) (timeout cfg) (verify_ssl cfg) = Ok code /\
        200 <= code < 400)) /\
  (exists r, snd (_check_tcp cfg w) = Ok r /\ failure_has_text r /\
     (success r = true ->
      exists host port n,
        rsplit1 ":" (target cfg) = [host; port] /\
        py_int (w_builtins w) port = Ok n /\
        w_socket w = Ok tt /\ w_settimeout w (timeout cfg) = Ok tt /\
        w_connect_ex w host n = Ok 0)) /\
  (exists r, snd (_check_icmp cfg w) = Ok r /\ failure_has_text r /\
     (success r = true ->
      exists argv out, w_ping w argv (timeout cfg + 1)%Q = Ok (0, Ok out))).
Proof.
  split; [|split; [|split]].
  - split.
    + intros [e He] Hk. destruct (check_service_known cfg w Hk) as (r & Hr & _).
      rewrite Hr in He. discriminate He.
    + intros Hk. rewrite (check_service_unknown cfg w Hk). eexists. reflexivity.
  - destruct (check_http_total cfg w) as (r & Hr & Ht). exists r.
    split; [exact Hr|]. split; [exact Ht|]. now apply check_http_success.
  - destruct (check_tcp_total cfg w) as (r & Hr & Ht). exists r.
    split; [exact Hr|]. split; [exact Ht|]. now apply check_tcp_success.
  - destruct (check_icmp_total cfg w) as (r & Hr & Ht). exists r.
    split; [exact Hr|]. split; [exact Ht|]. now apply check_icmp_success.
Qed.

Lemma check_errors_are_results_witness :
  (exists e, snd (_check_service sample_udp quiet_world) = Raise e) /\
  (exists r, snd (_check_http sample_http interrupted_world) = Ok r /\
             exists text, error_msg r = Some text /\ text <> "").
Proof.
  split.
  - apply (proj2 (proj1 (check_errors_are_results sample_udp quiet_world))).
    unfold known_check_type. simpl. intros [H|[H|H]]; discriminate H.
  - destruct (proj1 (proj2 (check_errors_are_results sample_http interrupted_world)))
      as (r & Hr & Ht & _).
    exists r. split; [exact Hr|]. apply Ht.
    simpl in Hr. injection Hr as <-. reflexivity.
Defined.



(** C8. A TCP target that contains a colon is cut at its last colon into a
    host and a port text; when [int] reads the port text as a number, that
    host and that number are what the check connects to, and it does connect
    to them once the socket is created and has taken its timeout;
    ["example.com:5432"] gives host [example.com] and port [5432].  A target
    without a colon, or whose port text [int] does not read as a number,
    yields a failure with latency [0] and a non-empty error text, and no
    socket action takes place at all. *)
Theorem check_tcp_target cfg w :
  (str_in ":" (target cfg) = true ->
   exists host port,
     rsplit1 ":" (target cfg) = [host; port] /\
     target cfg = host ++ ":" ++ port /\
     str_in ":" port = false /\
     (forall n, py_int (w_builtins w) port = Ok n ->
        (w_socket w = Ok tt -> w_settimeout w (timeout cfg) = Ok tt ->
         In (IoSocketConnect host n) (fst (_check_tcp cfg w))) /\
        (forall h p, In (IoSocketConnect h p) (fst (_check_tcp cfg w)) ->
                     h = host /\ p = n))) /\
  (str_in ":" (target cfg) = false \/
   (exists host port e,
      rsplit1 ":" (target cfg) = [host; port] /\
      py_int (w_builtins w) port = Raise e) ->
   exists text,
     text <> "" /\
     _check_tcp cfg w = ([], Ok (mk_check false 0%Q (Some text)))) /\
  (rsplit1 ":" "example.com:5432" = ["example.com"; "5432"] /\
   (forall b, py_int b "5432" = Ok 5432) /\
   fst (_check_tcp sample_tcp quiet_world)
   = [IoSocketOpen; IoSocketSetTimeout 5; IoSocketConnect "example.com" 5432;
      IoSocketClose]).
Proof.
  split; [|split].
  - intros Hin.
    destruct (proj1 (rsplit1_colon (target cfg)) Hin) as (host & port & Hsp & Ht & Hp).
    exists host, port. repeat (split; [assumption|]).
    intros n Hn. rewrite (check_tcp_cases cfg w host port Hsp), Hn. cbv zeta.
    split.
    + intros -> ->. destruct (w_connect_ex w host n); simpl; auto.
    + intros h p.
      destruct (w_socket w) as [[]|e1]; [|simpl; intuition discriminate].
      destruct (w_settimeout w (timeout cfg)) as [[]|e2];
        [|simpl; intuition discriminate].
      destruct (w_connect_ex w host n) as [code|e3]; simpl;
        intros [H|[H|[H|H]]]; try discriminate H; try contradiction;
        try (injection H as <- <-; auto);
        destruct H as [H|H]; try discriminate H; contradiction.
  - intros [Hno | (host & port & e & Hsp & Hbad)].
    + unfold _check_tcp. rewrite Hno. simpl. eexists. split; [|reflexivity].
      discriminate.
    + rewrite (check_tcp_cases cfg w host port Hsp), Hbad. cbv zeta.
      pose proof (py_int_raises _ _ _ Hbad) as Hcls.
      unfold is_socket_timeout, is_socket_gaierror. rewrite Hcls.
      eexists. split; [|reflexivity]. discriminate.
  - split; [reflexivity|]. split; [intros b; reflexivity | reflexivity].
Qed.

Lemma check_tcp_target_witness :
  (exists text,
     text <> "" /\
     _check_tcp sample_tcp_no_port quiet_world
     = ([], Ok (mk_check false 0%Q (Some text)))) /\
  (exists text,
     text <> "" /\
     _check_tcp sample_tcp_bad_port quiet_world
     = ([], Ok (mk_check false 0%Q (Some text)))) /\
  (exists host port,
     rsplit1 ":" (target sample_tcp) = [host; port] /\
     target sample_tcp = host ++ ":" ++ port /\
     In (IoSocketConnect host 5432) (fst (_check_tcp sample_tcp quiet_world))).
Proof.
  split; [|split].
  - apply (proj1 (proj2 (check_tcp_target sample_tcp_no_port quiet_world))).
    left. reflexivity.
  - apply (proj1 (proj2 (check_tcp_target sample_tcp_bad_port quiet_world))).
    right. exists "example.com", "http". eexists. split; reflexivity.
  - destruct (proj1 (check_tcp_target sample_tcp quiet_world))
      as (host & port & Hsp & Ht & _ & Hconn).
    + reflexivity.
    + exists host, port. split; [exact Hsp|]. split; [exact Ht|].
      injection Hsp as <- <-.
      apply (proj1 (Hconn 5432 eq_refl)); reflexivity.
Defined.





(* ------------------------------------------------------------------------- *)
(** * Further properties of the statistics *)

Lemma Qminb_le x y : (Qminb x y <= x)%Q /\ (Qminb x y <= y)%Q.
Proof.
  unfold Qminb. destruct (Qle_bool x y) eqn:E.
  - apply Qle_bool_iff in E. split; [apply Qle_refl | exact E].
  - split; [| apply Qle_refl]. apply Qlt_le_weak. apply Qnot_le_lt.
    intros H. apply Qle_bool_iff in H. congruence.
Qed.

Lemma Qmaxb_ge x y : (x <= Qmaxb x y)%Q /\ (y <= Qmaxb x y)%Q.
Proof.
  unfold Qmaxb. destruct (Qle_bool x y) eqn:E.
  - apply Qle_bool_iff in E. split; [exact E | apply Qle_refl].
  - split; [apply Qle_refl |]. apply Qlt_le_weak. apply Qnot_le_lt.
    intros H. apply Qle_bool_iff in H. congruence.
Qed.

Lemma fold_min_le l : forall x,
  (fold_left Qminb l x <= x)%Q /\
  (forall y, In y l -> fold_left Qminb l x <= y)%Q.
Proof.
  induction l as [|z l IH]; intros x; simpl.
  - split; [apply Qle_refl | intros y []].
  - destruct (IH (Qminb x z)) as [H1 H2]. destruct (Qminb_le x z) as [Hx Hz].
    split; [eapply Qle_trans; eauto|].
    intros y [<-|Hy]; [eapply Qle_trans; eauto | auto].
Qed.

Lemma fold_max_ge l : forall x,
  (x <= fold_left Qmaxb l x)%Q /\
  (forall y, In y l -> y <= fold_left Qmaxb l x)%Q.
Proof.
  induction l as [|z l IH]; intros x; simpl.
  - split; [apply Qle_refl | intros y []].
  - destruct (IH (Qmaxb x z)) as [H1 H2]. destruct (Qmaxb_ge x z) as [Hx Hz].
    split; [eapply Qle_trans; eauto|].
    intros y [<-|Hy]; [eapply Qle_trans; eauto | auto].
Qed.

Lemma py_min_max_bounds l :
  l <> [] ->
  exists lo hi, py_min l = Ok lo /\ py_max l = Ok hi /\
                forall y, In y l -> (lo <= y <= hi)%Q.
Proof.
  destruct l as [|x l]; [congruence|]. intros _. simpl.
  exists (fold_left Qminb l x), (fold_left Qmaxb l x).
  split; [reflexivity|]. split; [reflexivity|].
  destruct (fold_min_le l x) as [Hm1 Hm2]. destruct (fold_max_ge l x) as [HM1 HM2].
  intros y [<-|Hy]; split; auto.
Qed.

Lemma inject_of_nat_succ n :
  (inject_Z (Z.of_nat (S n)) == inject_Z (Z.of_nat n) + 1)%Q.
Proof. rewrite Nat2Z.inj_succ. unfold Z.succ. rewrite inject_Z_plus. reflexivity. Qed.

Lemma fold_plus_bounds lo hi l : forall a,
  (forall y, In y l -> lo <= y <= hi)%Q ->
  (a + inject_Z (Z.of_nat (List.length l)) * lo <= fold_left Qplus l a)%Q /\
  (fold_left Qplus l a <= a + inject_Z (Z.of_nat (List.length l)) * hi)%Q.
Proof.
  induction l as [|y l IH]; intros a Hb.
  - simpl. split; ring_simplify; apply Qle_refl.
  - cbn [fold_left List.length]. rewrite inject_of_nat_succ.
    destruct (IH (a + y)%Q (fun z Hz => Hb z (or_intror Hz))) as [H1 H2].
    destruct (Hb y (or_introl eq_refl)) as [Hlo Hhi].
    split.
    + eapply Qle_trans; [|exact H1].
      setoid_replace (a + (inject_Z (Z.of_nat (List.length l)) + 1) * lo)%Q
        with ((a + lo) + inject_Z (Z.of_nat (List.length l)) * lo)%Q by ring.
      apply Qplus_le_compat; [|apply Qle_refl].
      apply Qplus_le_compat; [apply Qle_refl | exact Hlo].
    + eapply Qle_trans; [exact H2|].
      setoid_replace (a + (inject_Z (Z.of_nat (List.length l)) + 1) * hi)%Q
        with ((a + hi) + inject_Z (Z.of_nat (List.length l)) * hi)%Q by ring.
      apply Qplus_le_compat; [|apply Qle_refl].
      apply Qplus_le_compat; [apply Qle_refl | exact Hhi].
Qed.

Lemma mean_bounds lo hi l :
  l <> [] -> (forall y, In y l -> lo <= y <= hi)%Q ->
  exists a, statistics_mean l = Ok a /\ (lo <= a <= hi)%Q.
Proof.
  intros Hne Hb. unfold statistics_mean, Qsum.
  destruct l as [|x l0] eqn:El; [congruence|]. rewrite <- El in *.
  eexists. split; [reflexivity|].
  assert (Hn : (0 < inject_Z (Z.of_nat (List.length l)))%Q).
  { rewrite El. simpl List.length. change 0%Q with (inject_Z 0).
    rewrite <- Zlt_Qlt. lia. }
  destruct (fold_plus_bounds lo hi l 0%Q Hb) as [H1 H2].
  split.
  - apply Qle_shift_div_l; [exact Hn|].
    eapply Qle_trans; [|exact H1].
    setoid_replace (0 + inject_Z (Z.of_nat (List.length l)) * lo)%Q
      with (lo * inject_Z (Z.of_nat (List.length l)))%Q by ring.
    apply Qle_refl.
  - apply Qle_shift_div_r; [exact Hn|].
    eapply Qle_trans; [exact H2|].
    setoid_replace (0 + inject_Z (Z.of_nat (List.length l)) * hi)%Q
      with (hi * inject_Z (Z.of_nat (List.length l)))%Q by ring.
    apply Qle_refl.
Qed.

Lemma insert_sorted_in x y l : In y (insert_sorted x l) -> y = x \/ In y l.
Proof.
  induction l as [|z l IH]; simpl.
  - intros [<-|[]]. auto.
  - destruct (Qle_bool x z); simpl.
    + intros [<-|H]; auto.
    + intros [<-|H]; auto. destruct (IH H); auto.
Qed.

Lemma sorted_in y l : In y (sorted l) -> In y l.
Proof.
  induction l as [|x l IH]; simpl; [auto|].
  intros H. destruct (insert_sorted_in _ _ _ H) as [->|H']; auto.
Qed.

Lemma median_bounds lo hi l :
  l <> [] -> (forall y, In y l -> lo <= y <= hi)%Q ->
  exists md, statistics_median l = Ok md /\ (lo <= md <= hi)%Q.
Proof.
  intros Hne Hb. unfold statistics_median.
  assert (Hnth : forall i, (i < List.length (sorted l))%nat ->
                           (lo <= nth i (sorted l) 0 <= hi)%Q).
  { intros i Hi. apply Hb, sorted_in, nth_In, Hi. }
  assert (Hlen : List.length (sorted l) <> O).
  { rewrite sorted_length. destruct l; [congruence | discriminate]. }
  destruct (List.length (sorted l)) as [|k] eqn:En; [congruence|].
  destruct (Nat.odd (S k)) eqn:Eodd.
  - eexists. split; [reflexivity|]. apply Hnth.
    apply Nat.div_lt; lia.
  - eexists. split; [reflexivity|].
    assert (Hk : (2 <= S k)%nat).
    { destruct k; [discriminate Eodd | lia]. }
    assert (Hd : (1 <= S k / 2 < S k)%nat).
    { split; [apply Nat.div_le_lower_bound; lia | apply Nat.div_lt; lia]. }
    destruct (Hnth (S k / 2 - 1)%nat) as [A1 A2]; [lia|].
    destruct (Hnth (S k / 2)%nat) as [B1 B2]; [lia|].
    split.
    + apply Qle_shift_div_l; [reflexivity|].
      setoid_replace (lo * 2)%Q with (lo + lo)%Q by ring.
      now apply Qplus_le_compat.
    + apply Qle_shift_div_r; [reflexivity|].
      setoid_replace (hi * 2)%Q with (hi + hi)%Q by ring.
      now apply Qplus_le_compat.
Qed.

(** X1. With at least one latency sample, the mean and the median that
    [get_avg_response_time] and [get_median_response_time] return lie between
    the minimum and the maximum of the samples; with none, both return [0.0]
    instead of raising [StatisticsError]. *)
Theorem latency_statistics_bounds st :
  (response_times st = [] ->
   get_avg_response_time st = Ok 0%Q /\ get_median_response_time st = Ok 0%Q) /\
  (response_times st <> [] ->
   exists lo hi avg med,
     py_min (response_times st) = Ok lo /\
     py_max (response_times st) = Ok hi /\
     get_avg_response_time st = Ok avg /\
     get_median_response_time st = Ok med /\
     (lo <= avg <= hi)%Q /\ (lo <= med <= hi)%Q).
Proof.
  split.
  - intros E. unfold get_avg_response_time, get_median_response_time.
    rewrite E. split; reflexivity.
  - intros Hne.
    destruct (py_min_max_bounds _ Hne) as (lo & hi & Hlo & Hhi & Hb).
    destruct (mean_bounds lo hi _ Hne Hb) as (avg & Ha & Hab).
    destruct (median_bounds lo hi _ Hne Hb) as (med & Hm & Hmb).
    exists lo, hi, avg, med.
    unfold get_avg_response_time, get_median_response_time.
    destruct (response_times st) eqn:E; [congruence|]. auto 10.
Qed.

Lemma latency_statistics_bounds_witness :
  exists lo hi avg med,
    py_min [30%Q; 10%Q; 20%Q; 40%Q] = Ok lo /\
    get_avg_response_time (mk_stats 4 4 0 [30%Q; 10%Q; 20%Q; 40%Q] [] 0) = Ok avg /\
    get_median_response_time (mk_stats 4 4 0 [30%Q; 10%Q; 20%Q; 40%Q] [] 0) = Ok med /\
    py_max [30%Q; 10%Q; 20%Q; 40%Q] = Ok hi /\
    (lo <= avg <= hi)%Q /\ (lo <= med <= hi)%Q.
Proof.
  destruct (proj2 (latency_statistics_bounds
                     (mk_stats 4 4 0 [30%Q; 10%Q; 20%Q; 40%Q] [] 0)))
    as (lo & hi & avg & med & H1 & H2 & H3 & H4 & H5 & H6).
  - simpl. discriminate.
  - exists lo, hi, avg, med. auto 10.
Defined.

Lemma stats_inv_nonneg st :
  stats_inv st ->
  0 <= successful_checks st /\ 0 <= failed_checks st /\
  total_checks st = successful_checks st + failed_checks st.
Proof. unfold stats_inv. intros (Ht & Hs & Hf). lia. Qed.

Lemma Qpercent_bounds s t :
  0 <= s <= t -> 0 < t ->
  (0 <= inject_Z s / inject_Z t * 100 <= 100)%Q /\
  ((inject_Z s / inject_Z t * 100 == 100)%Q <-> s = t).
Proof.
  intros Hs Ht.
  assert (Hq : (0 < inject_Z t)%Q).
  { change 0%Q with (inject_Z 0). rewrite <- Zlt_Qlt. exact Ht. }
  assert (Hle : (0 <= inject_Z s / inject_Z t <= 1)%Q).
  { split.
    - apply Qle_shift_div_l; [exact Hq|]. rewrite Qmult_0_l.
      change 0%Q with (inject_Z 0). rewrite <- Zle_Qle. lia.
    - apply Qle_shift_div_r; [exact Hq|]. rewrite Qmult_1_l.
      rewrite <- Zle_Qle. lia. }
  destruct Hle as [H0 H1]. split; [split|].
  - setoid_replace 0%Q with (0 * 100)%Q by ring.
    apply Qmult_le_compat_r; [exact H0 | discriminate].
  - setoid_replace 100%Q with (1 * 100)%Q at 2 by ring.
    apply Qmult_le_compat_r; [exact H1 | discriminate].
  - split.
    + intros E.
      assert (E1 : (inject_Z s / inject_Z t == 1)%Q).
      { apply (Qmult_inj_r _ _ 100); [discriminate|]. rewrite E. ring. }
      assert (E2 : (inject_Z s == inject_Z t)%Q).
      { rewrite <- (Qmult_div_r (inject_Z s) (inject_Z t)).
        - rewrite E1. ring.
        - intros Hz. rewrite Hz in Hq. discriminate Hq. }
      exact (proj1 (inject_Z_injective s t) E2).
    + intros ->. field. intros Hz. rewrite Hz in Hq. discriminate Hq.
Qed.

(** X2. For statistics that satisfy the invariant of the monitor, and so for
    the statistics of every run, the uptime percentage lies between 0 and
    100; once a check has been made it is 100 exactly when no check failed. *)
Theorem uptime_in_range st :
  stats_inv st ->
  exists q,
    get_uptime_percentage st = Ok q /\
    (0 <= q <= 100)%Q /\
    (0 < total_checks st -> ((q == 100)%Q <-> failed_checks st = 0)).
Proof.
  intros Hi. destruct (stats_inv_nonneg st Hi) as (Hs & Hf & Ht).
  unfold get_uptime_percentage, py_truediv.
  destruct (total_checks st =? 0) eqn:E.
  - apply Z.eqb_eq in E. exists 0%Q. split; [reflexivity|].
    split; [split; discriminate | lia].
  - apply Z.eqb_neq in E. eexists. split; [reflexivity|].
    destruct (Qpercent_bounds (successful_checks st) (total_checks st))
      as [Hb Heq]; [lia | lia |].
    split; [exact Hb|]. intros _. rewrite Heq. lia.
Qed.

Lemma uptime_in_range_witness :
  exists q,
    get_uptime_percentage
      (stats (monitor_of (run sample_http 60
                            [quiet_world; interrupted_world] (new_monitor 0))))
    = Ok q /\ (0 <= q <= 100)%Q.
Proof.
  destruct (uptime_in_range
              (stats (monitor_of (run sample_http 60
                                    [quiet_world; interrupted_world]
                                    (new_monitor 0)))))
    as (q & Hq & Hb & _).
  - unfold stats_inv. simpl. lia.
  - exists q. split; assumption.
Defined.

(** X3. [_print_statistics] always prints one summary.  It lists the latency
    figures exactly when there is at least one sample, and the downtime block
    exactly when there is at least one event: the block gives the number of
    events and shows the first five of them in their order (all of them when
    there are at most five), with the count of the remaining ones when there
    are more than five. *)
Theorem summary_blocks cfg now st :
  exists s,
    _print_statistics cfg now st = ([OutSummary s], Ok tt) /\
    (sum_duration s = now - start_time st)%Q /\
    (sum_latency s = None <-> response_times st = []) /\
    (sum_downtime s = None <-> downtime_events st = []) /\
    (forall n shown more,
       sum_downtime s = Some (n, shown, more) ->
       n = Z.of_nat (List.length (downtime_events st)) /\
       shown = firstn 5 (downtime_events st) /\
       (n <= 5 -> shown = downtime_events st /\ more = None) /\
       (5 < n -> List.length shown = 5%nat /\ more = Some (n - 5))).
Proof.
  unfold _print_statistics.
  destruct (uptime_returns st) as [u ->].
  destruct (avg_returns st) as [a ->].
  destruct (median_returns st) as [md ->].
  assert (Hd : forall (l : list string) n shown more,
             Some (Z.of_nat (List.length l), firstn 5 l,
                   if Z.of_nat (List.length l) >? 5
                   then Some (Z.of_nat (List.length l) - 5) else None)
             = Some (n, shown, more) ->
             n = Z.of_nat (List.length l) /\
             shown = firstn 5 l /\
             (n <= 5 -> shown = l /\ more = None) /\
             (5 < n -> List.length shown = 5%nat /\ more = Some (n - 5))).
  { intros l n shown more Heq.
    assert (En : n = Z.of_nat (List.length l)) by congruence.
    assert (Es : shown = firstn 5 l) by congruence.
    assert (Em : more = if Z.of_nat (List.length l) >? 5
                        then Some (Z.of_nat (List.length l) - 5) else None)
      by congruence.
    clear Heq. subst n shown. split; [reflexivity|]. split; [reflexivity|].
    destruct (Z.of_nat (List.length l) >? 5) eqn:E.
    - apply Z.gtb_lt in E. split; [intros; exfalso; lia|]. intros _.
      split; [|exact Em]. apply firstn_length_le. lia.
    - rewrite Z.gtb_ltb in E. apply Z.ltb_ge in E.
      split; [|intros; exfalso; lia]. intros _.
      split; [|exact Em]. apply firstn_all2. lia. }
  destruct (response_times st) as [|x l] eqn:Er;
    destruct (downtime_events st) as [|ev evs] eqn:Ed;
    cbn -[firstn Z.of_nat List.length Z.gtb Z.sub Qminus];
    eexists; (split; [reflexivity|]); cbn [sum_duration sum_latency sum_downtime];
    (split; [reflexivity|]);
    (split; [split; intros; (reflexivity || discriminate)|]);
    (split; [split; intros; (reflexivity || discriminate)|]).
  all: try (intros n shown more; discriminate).
  all: apply (Hd (ev :: evs)).
Qed.

Lemma summary_blocks_witness :
  exists s shown,
    _print_statistics sample_http 60
      (mk_stats 6 0 6 [] ["e1"; "e2"; "e3"; "e4"; "e5"; "e6"] 0)
    = ([OutSummary s], Ok tt) /\
    sum_downtime s = Some (6, shown, Some (6 - 5)) /\
    List.length shown = 5%nat.
Proof.
  destruct (summary_blocks sample_http 60
              (mk_stats 6 0 6 [] ["e1"; "e2"; "e3"; "e4"; "e5"; "e6"] 0))
    as (s & Hs & _ & _ & _ & Hd).
  injection Hs as <-.
  destruct (Hd 6 ["e1"; "e2"; "e3"; "e4"; "e5"] (Some 1) eq_refl)
    as (_ & _ & _ & Hmore).
  destruct (Hmore ltac:(lia)) as [Hlen Hm].
  eexists. exists ["e1"; "e2"; "e3"; "e4"; "e5"].
  split; [reflexivity|]. split; [reflexivity | exact Hlen].
Defined.

(* ------------------------------------------------------------------------- *)
(** * Further properties of the probers *)

(** X4. A TCP check whose target is well formed (a colon, and a port text
    that [int] reads as a number) creates a socket, gives it the configured
    timeout and connects to the host and port of the target.  If
    [connect_ex] returns, the socket is closed and the result is a success
    with the measured latency when the code is 0, and otherwise a failure
    with the measured latency whose error names the code.  If creating the
    socket, setting its timeout or [connect_ex] raises, nothing further is
    done with the socket (it is not closed by the check, and after a refused
    timeout no connection is attempted), and the result is a failure: the
    configured timeout in milliseconds and ["Timeout"] for [socket.timeout],
    latency 0 and ["DNS resolution failed"] for [socket.gaierror], latency 0
    and the text of the exception otherwise. *)
Theorem check_tcp_outcome cfg w host port n :
  rsplit1 ":" (target cfg) = [host; port] ->
  py_int (w_builtins w) port = Ok n ->
  let failure e :=
    if is_socket_timeout e
    then mk_check false (timeout cfg * 1000)%Q (Some "Timeout")
    else if is_socket_gaierror e
         then mk_check false 0%Q (Some "DNS resolution failed")
         else mk_check false 0%Q (Some ("Error: " ++ exn_str e)) in
  (forall e, w_socket w = Raise e ->
     _check_tcp cfg w = ([IoSocketOpen], Ok (failure e))) /\
  (forall e, w_socket w = Ok tt -> w_settimeout w (timeout cfg) = Raise e ->
     _check_tcp cfg w =
     ([IoSocketOpen; IoSocketSetTimeout (timeout cfg)], Ok (failure e))) /\
  (forall code,
     w_socket w = Ok tt -> w_settimeout w (timeout cfg) = Ok tt ->
     w_connect_ex w host n = Ok code ->
     _check_tcp cfg w =
     ([IoSocketOpen; IoSocketSetTimeout (timeout cfg); IoSocketConnect host n;
       IoSocketClose],
      Ok (if code =? 0 then mk_check true (w_elapsed_ms w) None
          else mk_check false (w_elapsed_ms w)
                 (Some ("Connection refused (code: " ++ str_of_Z code ++ ")"))))) /\
  (forall e,
     w_socket w = Ok tt -> w_settimeout w (timeout cfg) = Ok tt ->
     w_connect_ex w host n = Raise e ->
     _check_tcp cfg w =
     ([IoSocketOpen; IoSocketSetTimeout (timeout cfg); IoSocketConnect host n],
      Ok (failure e))).
Proof.
  intros Hsp Hn failure.
  rewrite (check_tcp_cases cfg w host port Hsp), Hn. cbv zeta. fold failure.
  split; [|split; [|split]].
  - intros e ->. reflexivity.
  - intros e -> ->. reflexivity.
  - intros code -> -> ->. reflexivity.
  - intros e -> -> ->. reflexivity.
Qed.

Lemma check_tcp_outcome_witness :
  _check_tcp sample_tcp quiet_world =
  ([IoSocketOpen; IoSocketSetTimeout 5; IoSocketConnect "example.com" 5432;
    IoSocketClose],
   Ok (mk_check true 20 None)).
Proof.
  apply (proj1 (proj2 (proj2 (check_tcp_outcome sample_tcp quiet_world
                                "example.com" "5432" 5432 eq_refl eq_refl))) 0);
    reflexivity.
Defined.

Lemma silent_trace {A} (c : io A) : io_quiet (fun _ => false) c -> fst c = [].
Proof.
  destruct c as [tr r]. unfold io_quiet. simpl.
  destruct tr; [reflexivity | discriminate].
Qed.

(** A guarded block that starts with one action and is silent afterwards,
    handlers included, performs exactly that action. *)
Lemma trace_emit_then {A} (ev : event) (k : unit -> io A) (h : exn -> io A) :
  io_quiet (fun _ => false) (k tt) ->
  (forall e, io_quiet (fun _ => false) (h e)) ->
  fst (try_except (bind (emit ev) k) h) = [ev].
Proof.
  intros Hk Hh. apply silent_trace in Hk.
  unfold try_except, bind, emit. destruct (k tt) as [tr [r|e]]; simpl in Hk; subst tr.
  - reflexivity.
  - specialize (Hh e). apply silent_trace in Hh.
    destruct (h e) as [tr' r']. simpl in *. subst tr'. reflexivity.
Qed.



(** The successful branch of [_check_icmp], with the nested [try] written
    as the cases it distinguishes. *)
Lemma check_icmp_ping_ok cfg w output :
  w_ping w (ping_argv cfg w) (timeout cfg + 1)%Q = Ok (0, Ok output) ->
  snd (_check_icmp cfg w) =
  Ok (mk_check true
        (match
            (if str_in "time=" output then
               match py_index (str_split "time=" output) 1 with
               | Ok piece =>
                   match py_index (str_split_ws piece) 0 with
                   | Ok tok =>
                       match w_float w (str_remove "ms" tok) with
                       | Ok t => Some t
                       | Raise _ => None
                       end
                   | Raise _ => None
                   end
               | Raise _ => None
               end
             else None)
          with
          | Some t => t
          | None => w_elapsed_ms w
          end) None).
Proof.
  intros Hp. unfold _check_icmp. fold (ping_argv cfg w).
  unfold try_except at 1. unfold bind at 1. unfold emit. unfold bind at 1.
  unfold lift at 1. rewrite Hp. cbn [Z.eqb].
  unfold try_except, bind, lift, ret. cbn beta iota.
  destruct (str_in "time=" output); [|reflexivity]. cbn beta iota.
  destruct (py_index (str_split "time=" output) 1) as [piece|e1]; [|reflexivity].
  cbn beta iota.
  destruct (py_index (str_split_ws piece) 0) as [tok|e2]; [|reflexivity].
  cbn beta iota.
  destruct (w_float w (str_remove "ms" tok)); reflexivity.
Qed.

(** X6. After a ping that exits with code 0, the check is a success.  Its
    latency is the number read from the first word after the first [time=] of
    the output, with any [ms] removed from that word; when the output has no
    [time=], when no word follows it, or when the word is not a number, the
    latency is the measured wall-clock time instead. *)
Theorem check_icmp_latency cfg w output :
  w_ping w (ping_argv cfg w) (timeout cfg + 1)%Q = Ok (0, Ok output) ->
  (str_in "time=" output = false ->
   snd (_check_icmp cfg w) = Ok (mk_check true (w_elapsed_ms w) None)) /\
  (forall piece,
     str_in "time=" output = true ->
     py_index (str_split "time=" output) 1 = Ok piece ->
     (forall tok t,
        py_index (str_split_ws piece) 0 = Ok tok ->
        w_float w (str_remove "ms" tok) = Ok t ->
        snd (_check_icmp cfg w) = Ok (mk_check true t None)) /\
     (forall tok e,
        py_index (str_split_ws piece) 0 = Ok tok ->
        w_float w (str_remove "ms" tok) = Raise e ->
        snd (_check_icmp cfg w) = Ok (mk_check true (w_elapsed_ms w) None)) /\
     (forall e,
        py_index (str_split_ws piece) 0 = Raise e ->
        snd (_check_icmp cfg w) = Ok (mk_check true (w_elapsed_ms w) None))) /\
  (exists t, snd (_check_icmp cfg w) = Ok (mk_check true t None)).
Proof.
  intros Hp. rewrite (check_icmp_ping_ok cfg w output Hp).
  split; [|split].
  - intros ->. reflexivity.
  - intros piece -> ->. split; [|split].
    + intros tok t -> ->. reflexivity.
    + intros tok e -> ->. reflexivity.
    + intros e ->. reflexivity.
  - eexists. reflexivity.
Qed.

Lemma check_icmp_latency_witness :
  snd (_check_icmp (mk_config "1.1.1.1" "icmp" 1 5 100 None true) quiet_world)
  = Ok (mk_check true 12.5 None).
Proof.
  destruct (check_icmp_latency (mk_config "1.1.1.1" "icmp" 1 5 100 None true)
              quiet_world
              "64 bytes from 1.1.1.1: icmp_seq=1 ttl=57 time=12.5 ms" eq_refl)
    as (_ & Hparse & _).
  destruct (Hparse "12.5 ms" eq_refl eq_refl) as (Hok & _).
  apply (Hok "12.5" 12.5%Q); reflexivity.
Defined.

(** X7. For a failed check [_print_status] prints one DOWN line.  Its text is
    the error message of the check, or ["Unknown error"] when the message is
    missing or empty, followed by the latency exactly when the latency is
    positive.  With a log file configured the same text and latency are
    written as a DOWNTIME log line, and a failure of that write leaves
    [_print_status] as an exception after the line was printed; without a log
    file nothing is logged and nothing is raised. *)
Theorem print_status_down cfg w r :
  success r = false ->
  exists text after,
    status_lines (fst (_print_status cfg w r)) = [(DOWN, DetailsDown text after)] /\
    (forall msg, error_msg r = Some msg -> msg <> "" -> text = msg) /\
    (error_msg r = None \/ error_msg r = Some "" -> text = "Unknown error") /\
    ((0 < response_time r)%Q -> after = Some (response_time r)) /\
    (~ (0 < response_time r)%Q -> after = None) /\
    (log_file cfg = None \/ log_file cfg = Some "" ->
     _print_status cfg w r
     = ([OutStatus (w_now w AtStatus) DOWN (DetailsDown text after)], Ok tt)) /\
    (forall f, log_file cfg = Some f -> f <> "" -> w_log_write w = Ok tt ->
       _print_status cfg w r
       = ([OutStatus (w_now w AtStatus) DOWN (DetailsDown text after);
           OutLog (w_now w AtDowntimeLog) (LogDowntime text after)], Ok tt)) /\
    (forall f e, log_file cfg = Some f -> f <> "" -> w_log_write w = Raise e ->
       _print_status cfg w r
       = ([OutStatus (w_now w AtStatus) DOWN (DetailsDown text after)], Raise e)).
Proof.
  intros Hs.
  exists (str_or (error_msg r) "Unknown error"),
         (if Qgtb (response_time r) 0 then Some (response_time r) else None).
  assert (Hlog : forall f, log_file cfg = Some f -> f <> "" ->
                           str_truthy (log_file cfg) = true).
  { intros f -> Hf. destruct f; [congruence | reflexivity]. }
  split; [|split; [|split; [|split; [|split; [|split; [|split]]]]]].
  - unfold _print_status, _log. rewrite Hs.
    destruct (str_truthy (log_file cfg)), (w_log_write w); reflexivity.
  - intros msg -> Hm. destruct msg; [congruence | reflexivity].
  - intros [-> | ->]; reflexivity.
  - intros Hpos. apply Qgtb_spec in Hpos. rewrite Hpos. reflexivity.
  - intros Hn. destruct (Qgtb (response_time r) 0) eqn:E; [|reflexivity].
    apply Qgtb_spec in E. contradiction.
  - intros Hno. unfold _print_status, _log. rewrite Hs.
    replace (str_truthy (log_file cfg)) with false
      by (destruct Hno as [-> | ->]; reflexivity).
    reflexivity.
  - intros f Hf Hne Hw. unfold _print_status, _log.
    rewrite Hs, (Hlog f Hf Hne), Hw. reflexivity.
  - intros f e Hf Hne Hw. unfold _print_status, _log.
    rewrite Hs, (Hlog f Hf Hne), Hw. reflexivity.
Qed.

Lemma print_status_down_witness :
  exists text after,
    _print_status sample_tcp quiet_world (mk_check false 5000 (Some "Timeout"))
    = ([OutStatus "2024-05-01 10:00:00.000" DOWN (DetailsDown text after);
        OutLog "2024-05-01 10:00:00.000" (LogDowntime text after)], Ok tt) /\
    text = "Timeout" /\ after = Some 5000%Q.
Proof.
  destruct (print_status_down sample_tcp quiet_world
              (mk_check false 5000 (Some "Timeout")) eq_refl)
    as (text & after & _ & Ht & _ & Ha & _ & _ & Hl & _).
  exists text, after. split; [|split].
  - apply (Hl "monitor.log"); [reflexivity | discriminate | reflexivity].
  - apply Ht; [reflexivity | discriminate].
  - apply Ha. reflexivity.
Defined.

(* ------------------------------------------------------------------------- *)
(** * Further properties of the loop *)

Lemma sleeps_app tr1 tr2 : sleeps (tr1 ++ tr2) = (sleeps tr1 ++ sleeps tr2)%list.
Proof.
  induction tr1 as [|ev tr1 IH]; [reflexivity|].
  destruct ev; simpl; rewrite ?IH; reflexivity.
Qed.

Lemma log_lines_app tr1 tr2 :
  log_lines (tr1 ++ tr2) = (log_lines tr1 ++ log_lines tr2)%list.
Proof.
  induction tr1 as [|ev tr1 IH]; [reflexivity|].
  destruct ev; simpl; rewrite ?IH; reflexivity.
Qed.

Lemma verdicts_app tr1 tr2 :
  verdicts (tr1 ++ tr2) = (verdicts tr1 ++ verdicts tr2)%list.
Proof.
  induction tr1 as [|ev tr1 IH]; [reflexivity|].
  destruct ev; simpl; rewrite ?IH; reflexivity.
Qed.

Lemma io_trace_observers tr :
  forallb is_io tr = true ->
  sleeps tr = [] /\ log_lines tr = [] /\ verdicts tr = [].
Proof.
  induction tr as [|ev tr IH]; [auto|]. simpl. intros H.
  apply andb_true_iff in H as [Hev Htr]. destruct (IH Htr) as (H1 & H2 & H3).
  destruct ev; simpl in *; try discriminate; auto.
Qed.

(** The per-check log line of [run]. *)
Lemma check_log_line cfg w cr :
  _log cfg w AtCheckLog
    (LogCheck (if success cr then "SUCCESS" else "FAILURE") (response_time cr)
       (str_or (error_msg cr) "OK"))
  = if str_truthy (log_file cfg)
    then match w_log_write w with
         | Ok _ =>
             ([OutLog (w_now w AtCheckLog)
                 (LogCheck (if success cr then "SUCCESS" else "FAILURE")
                    (response_time cr) (str_or (error_msg cr) "OK"))], Ok tt)
         | Raise e => ([], Raise e)
         end
    else ([], Ok tt).
Proof.
  unfold _log. destruct (str_truthy (log_file cfg)); [|reflexivity].
  unfold bind, lift, emit. destruct (w_log_write w) as [[]|e]; reflexivity.
Qed.

(** An iteration in which the check returns, no SIGINT arrives, the log
    file, if any, can be written and [time.sleep] takes the interval: the
    probe, the status line, the log line and the sleep, in this order, and
    the check recorded. *)
Lemma iteration_plain cfg w m trp cr :
  _check_service cfg w = (trp, Ok cr) ->
  (forall p, w_sigint w p = false) ->
  str_truthy (log_file cfg) = false \/ w_log_write w = Ok tt ->
  w_sleep w (interval cfg) = Ok tt ->
  iteration cfg w m =
  ((trp ++ fst (_print_status cfg w cr)
        ++ fst (_log cfg w AtCheckLog
                  (LogCheck (if success cr then "SUCCESS" else "FAILURE")
                     (response_time cr) (str_or (error_msg cr) "OK")))
        ++ [OutSleep (interval cfg)])%list,
   mk_monitor (record_check (w_now w AtEvent) cr (stats m)) (running m),
   Ok tt).
Proof.
  intros Ecs Hsig Hlog Hsl.
  unfold iteration, mbind, liftio, deliver, _signal_handler, mret, modify_stats.
  rewrite !Hsig, Ecs. cbn beta iota delta [fst snd].
  rewrite check_log_line.
  unfold _print_status, _log, bind, emit, lift, ret. rewrite Hsl.
  destruct Hlog as [Hl | Hl]; rewrite Hl;
    destruct (success cr), (Qgtb (response_time cr) (threshold cfg)),
      (Qgtb (response_time cr) 0); try destruct (str_truthy (log_file cfg));
    destruct m as [st rn]; cbn; rewrite ?app_nil_r, <- ?app_assoc; reflexivity.
Qed.

(** With a known check type and a log file that can be written, an
    iteration ends the way its [time.sleep] does. *)
Lemma iteration_result cfg w m :
  known_check_type cfg ->
  str_truthy (log_file cfg) = false \/ w_log_write w = Ok tt ->
  result_of (iteration cfg w m) = w_sleep w (interval cfg).
Proof.
  intros Hk Hlog. destruct (check_service_known cfg w Hk) as (cr & Hcr & _).
  destruct (_check_service cfg w) as [trp rc] eqn:Ecs. simpl in Hcr. subst rc.
  unfold iteration, mbind, liftio, deliver, _signal_handler, mret, modify_stats.
  rewrite Ecs. cbn beta iota delta [fst snd].
  rewrite check_log_line.
  unfold _print_status, _log, bind, emit, lift, ret.
  destruct Hlog as [Hl | Hl]; rewrite Hl;
    destruct (w_sleep w (interval cfg)) as [[]|es];
    destruct (w_sigint w SigInProbe), (w_sigint w SigInRecord),
      (w_sigint w SigInReport), (w_sigint w SigInSleep),
      (success cr), (Qgtb (response_time cr) (threshold cfg));
    try destruct (str_truthy (log_file cfg)); reflexivity.
Qed.

Lemma iteration_returns cfg w m :
  known_check_type cfg ->
  str_truthy (log_file cfg) = false \/ w_log_write w = Ok tt ->
  w_sleep w (interval cfg) = Ok tt ->
  result_of (iteration cfg w m) = Ok tt.
Proof. intros Hk Hlog Hsl. now rewrite iteration_result. Qed.

(** X8. With a known check type, [run] is left by an exception only through
    the log file or through [time.sleep]: if no log file is configured, or
    every write to it succeeds, and [time.sleep] takes the interval, no
    exception leaves [run], however the checks themselves turn out and
    whenever SIGINT arrives.  An interval that [time.sleep] refuses does end
    [run], with the exception of [time.sleep], in the first iteration and
    after its check has been recorded. *)
Theorem run_never_raises cfg now ws m :
  known_check_type cfg ->
  str_truthy (log_file cfg) = false \/
  Forall (fun w => w_log_write w = Ok tt) ws ->
  (Forall (fun w => w_sleep w (interval cfg) = Ok tt) ws ->
   exists status, result_of (run cfg now ws m) = Ok status) /\
  (forall w ws' e,
     ws = w :: ws' -> running m = true -> w_sleep w (interval cfg) = Raise e ->
     result_of (run cfg now ws m) = Raise e /\
     stats (monitor_of (run cfg now ws m)) = record_world cfg (stats m) w /\
     total_checks (stats (monitor_of (run cfg now ws m)))
     = total_checks (stats m) + 1).
Proof.
  intros Hk Hlog. split.
  - intros Hsleep. rewrite run_result. clear now. revert m.
    induction ws as [|w ws IH]; intros m.
    + simpl. destruct (running m); eexists; reflexivity.
    + destruct (running m) eqn:Hr;
        [| rewrite (while_stopped _ _ _ Hr); eexists; reflexivity].
      rewrite (while_step _ _ _ _ Hr).
      assert (Hw : str_truthy (log_file cfg) = false \/ w_log_write w = Ok tt).
      { destruct Hlog as [H|H]; [left; exact H | right; now inversion H]. }
      assert (Hws : str_truthy (log_file cfg) = false \/
                    Forall (fun w => w_log_write w = Ok tt) ws).
      { destruct Hlog as [H|H]; [left; exact H | right; now inversion H]. }
      inversion Hsleep as [|? ? Hsl Hsleep']; subst.
      pose proof (iteration_returns cfg w m Hk Hw Hsl) as Hit.
      destruct (iteration cfg w m) as [[tr1 m1] r1]. unfold result_of in Hit.
      simpl in Hit. subst r1.
      destruct (IH Hws Hsleep' m1) as [status Hs].
      destruct (while_running cfg ws m1) as [[tr2 m2] r2]. exists status. exact Hs.
  - intros w ws' e -> Hr Hsl.
    assert (Hw : str_truthy (log_file cfg) = false \/ w_log_write w = Ok tt).
    { destruct Hlog as [H|H]; [left; exact H | right; now inversion H]. }
    rewrite run_result, run_monitor, (while_step _ _ _ _ Hr).
    pose proof (iteration_result cfg w m Hk Hw) as Hit.
    pose proof (iteration_records cfg w m) as Hrec.
    rewrite Hsl in Hit.
    destruct (iteration cfg w m) as [[tr1 m1] r1].
    unfold result_of, monitor_of in *. cbn [fst snd] in *. subst r1.
    cbn [fst snd]. split; [reflexivity|]. split; [exact Hrec|].
    rewrite Hrec. unfold record_world.
    destruct (check_service_known cfg w Hk) as (cr & -> & _).
    unfold record_check. destruct (success cr); reflexivity.
Qed.

Lemma run_never_raises_witness :
  exists status,
    result_of (run sample_http 60 [interrupted_world; quiet_world] (new_monitor 0))
    = Ok status.
Proof.
  apply (proj1 (run_never_raises sample_http 60 [interrupted_world; quiet_world]
                  (new_monitor 0) (or_introl eq_refl) (or_introl eq_refl))).
  repeat constructor.
Defined.

Lemma print_status_observers cfg w cr :
  sleeps (fst (_print_status cfg w cr)) = [] /\
  List.length (verdicts (fst (_print_status cfg w cr))) = 1%nat.
Proof.
  unfold _print_status, _log, bind, emit, lift, ret.
  destruct (success cr), (Qgtb (response_time cr) (threshold cfg)),
    (str_truthy (log_file cfg)), (w_log_write w); split; reflexivity.
Qed.

Lemma check_log_observers cfg w cr :
  sleeps (fst (_log cfg w AtCheckLog
                 (LogCheck (if success cr then "SUCCESS" else "FAILURE")
                    (response_time cr) (str_or (error_msg cr) "OK")))) = [] /\
  verdicts (fst (_log cfg w AtCheckLog
                   (LogCheck (if success cr then "SUCCESS" else "FAILURE")
                      (response_time cr) (str_or (error_msg cr) "OK")))) = [].
Proof.
  rewrite check_log_line.
  destruct (str_truthy (log_file cfg)), (w_log_write w); split; reflexivity.
Qed.

(** X9. While no SIGINT arrives (and the check type is known, the log
    file, if any, can be written and [time.sleep] takes the interval), the
    loop keeps going: after [n] iterations it is still running,
    [total_checks] has grown by exactly [n], one status line has been printed
    per iteration, and the loop has slept [n] times, each time for the
    configured interval whatever the latency of the check was; no summary
    has been printed yet. *)
Theorem uninterrupted_iterations cfg now ws m :
  known_check_type cfg ->
  running m = true ->
  Forall (fun w => forall p, w_sigint w p = false) ws ->
  str_truthy (log_file cfg) = false \/
  Forall (fun w => w_log_write w = Ok tt) ws ->
  Forall (fun w => w_sleep w (interval cfg) = Ok tt) ws ->
  result_of (run cfg now ws m) = Ok LoopRunning /\
  running (monitor_of (run cfg now ws m)) = true /\
  total_checks (stats (monitor_of (run cfg now ws m)))
  = total_checks (stats m) + Z.of_nat (List.length ws) /\
  sleeps (trace_of (run cfg now ws m)) = repeat (interval cfg) (List.length ws) /\
  List.length (verdicts (trace_of (run cfg now ws m))) = List.length ws /\
  summaries (trace_of (run cfg now ws m)) = [].
Proof.
  intros Hk Hr Hsig Hlog Hsleep.
  assert (Hloop :
    forall ws m, running m = true ->
      Forall (fun w => forall p, w_sigint w p = false) ws ->
      str_truthy (log_file cfg) = false \/
      Forall (fun w => w_log_write w = Ok tt) ws ->
      Forall (fun w => w_sleep w (interval cfg) = Ok tt) ws ->
      exists tr m',
        while_running cfg ws m = (tr, m', Ok LoopRunning) /\
        running m' = true /\
        total_checks (stats m') = total_checks (stats m) + Z.of_nat (List.length ws) /\
        sleeps tr = repeat (interval cfg) (List.length ws) /\
        List.length (verdicts tr) = List.length ws).
  { clear ws m Hr Hsig Hlog Hsleep.
    induction ws as [|w ws IH]; intros m Hr Hsig Hlog Hsleep.
    - exists [], m. simpl. rewrite Hr. repeat split; auto. lia.
    - rewrite (while_step _ _ _ _ Hr).
      assert (Hw : str_truthy (log_file cfg) = false \/ w_log_write w = Ok tt).
      { destruct Hlog as [H|H]; [left; exact H | right; now inversion H]. }
      assert (Hws : str_truthy (log_file cfg) = false \/
                    Forall (fun w => w_log_write w = Ok tt) ws).
      { destruct Hlog as [H|H]; [left; exact H | right; now inversion H]. }
      inversion Hsig as [|? ? Hw0 Hsig']; subst.
      inversion Hsleep as [|? ? Hsl Hsleep']; subst.
      destruct (check_service_known cfg w Hk) as (cr & Hcr & _).
      destruct (_check_service cfg w) as [trp rc] eqn:Ecs. simpl in Hcr. subst rc.
      rewrite (iteration_plain cfg w m trp cr Ecs Hw0 Hw Hsl).
      destruct (IH (mk_monitor (record_check (w_now w AtEvent) cr (stats m))
                      (running m)) Hr Hsig' Hws Hsleep')
        as (tr & m' & Hwr & Hr' & Ht & Hsl' & Hv).
      rewrite Hwr. eexists. exists m'. split; [reflexivity|].
      split; [exact Hr'|]. split.
      { rewrite Ht. cbn [stats List.length]. unfold record_check.
        destruct (success cr); cbn [total_checks]; lia. }
      pose proof (check_service_quiet cfg w) as Hq. unfold io_quiet in Hq.
      rewrite Ecs in Hq. simpl in Hq.
      destruct (io_trace_observers trp Hq) as (Hs1 & _ & Hv1).
      destruct (print_status_observers cfg w cr) as (Hs2 & Hv2).
      destruct (check_log_observers cfg w cr) as (Hs3 & Hv3).
      split.
      + rewrite !sleeps_app, Hs1, Hs2, Hs3, Hsl'. reflexivity.
      + rewrite !verdicts_app, !length_app, Hv1, Hv2, Hv3, Hv. reflexivity. }
  destruct (Hloop ws m Hr Hsig Hlog Hsleep) as (tr & m' & Hwr & Hr' & Ht & Hsl & Hv).
  destruct (while_spec _ _ _ _ _ _ Hwr) as (Hsum & _).
  destruct (run_unfold cfg now ws m _ _ _ Hwr) as [[_ ->] | [Hne _]];
    [|congruence].
  unfold result_of, monitor_of, trace_of. cbn [fst snd].
  repeat (split; [assumption || reflexivity|]). exact Hsum.
Qed.

Lemma uninterrupted_iterations_witness :
  total_checks (stats (monitor_of (run sample_http 60 [quiet_world; quiet_world]
                                     (new_monitor 0)))) = 0 + 2 /\
  sleeps (trace_of (run sample_http 60 [quiet_world; quiet_world] (new_monitor 0)))
  = [1%Q; 1%Q].
Proof.
  destruct (uninterrupted_iterations sample_http 60 [quiet_world; quiet_world]
              (new_monitor 0)) as (_ & _ & Ht & Hs & _).
  - left. reflexivity.
  - reflexivity.
  - repeat constructor.
  - left. reflexivity.
  - repeat constructor.
  - split; [exact Ht | exact Hs].
Defined.

(* ------------------------------------------------------------------------- *)
(** * [main] *)

Lemma py_last_cons {A} (x : A) (l : list A) :
  l <> [] -> py_last (x :: l) = py_last l.
Proof.
  intros Hne. unfold py_last. simpl.
  destruct (rev l) as [|a r] eqn:E; [|reflexivity].
  apply (f_equal (@rev A)) in E. rewrite rev_involutive in E. contradiction.
Qed.

Lemma split_go_nonempty sep s : forall k acc, split_go sep k acc s <> [].
Proof.
  induction s as [|a s IH]; intros k acc; cbn [split_go]; [discriminate|].
  destruct k; [|apply IH]. destruct (String.prefix sep (String a s)); [discriminate|].
  apply IH.
Qed.

Lemma append_nil_r (s : string) : s ++ "" = s.
Proof. induction s as [|a s IH]; simpl; [reflexivity | now rewrite IH]. Qed.

Lemma append_snoc (s : string) (a : ascii) (t : string) :
  (s ++ String a "") ++ t = s ++ String a t.
Proof. induction s as [|b s IH]; simpl; [reflexivity | now rewrite IH]. Qed.

(** [t.split(':')[-1]] is the text after the last colon of [t], or [t]
    itself when it has no colon: the port text [rsplit(':', 1)] yields. *)
Lemma split_colon_last s : forall acc,
  py_last (split_go ":" 0 acc s)
  = Ok (match rsplit1 ":" s with
        | [_; p] => p
        | _ => acc ++ s
        end).
Proof.
  induction s as [|a s IH]; intros acc.
  - simpl. now rewrite append_nil_r.
  - cbn [split_go String.prefix rsplit1 String.length Nat.sub].
    destruct (ascii_dec ":" a) as [<-|Hn].
    + replace (String.prefix "" s) with true by (destruct s; reflexivity).
      rewrite py_last_cons by apply split_go_nonempty.
      rewrite IH. rewrite Ascii.eqb_refl.
      destruct (rsplit1 ":" s) as [|h [|p [|q l]]]; reflexivity.
    + rewrite IH, append_snoc.
      destruct (Ascii.eqb_spec a ":") as [->|_]; [contradiction|].
      destruct (rsplit1 ":" s) as [|h [|p [|q l]]]; reflexivity.
Qed.

Lemma is_digit_not_space a : is_digit a = true -> is_int_space a = false.
Proof.
  unfold is_digit, is_int_space. intros H.
  apply andb_true_iff in H as [H1 H2].
  apply Nat.leb_le in H1. apply Nat.leb_le in H2.
  apply orb_false_iff. split.
  - apply andb_false_iff. right. apply Nat.leb_gt. lia.
  - apply Nat.eqb_neq. lia.
Qed.

Lemma drop_space_digit a l : is_digit a = true -> drop_int_space (a :: l) = a :: l.
Proof. intros H. simpl. now rewrite (is_digit_not_space a H). Qed.

Lemma strip_digits l : forallb is_digit l = true -> strip_int l = l.
Proof.
  intros H. unfold strip_int. destruct l as [|a l]; [reflexivity|].
  rewrite drop_space_digit by (simpl in H; now apply andb_true_iff in H).
  destruct (rev (a :: l)) as [|b r] eqn:E.
  - apply (f_equal (@rev ascii)) in E. rewrite rev_involutive in E. discriminate E.
  - rewrite drop_space_digit.
    + rewrite <- E. apply rev_involutive.
    + rewrite forallb_forall in H. apply H. apply in_rev. rewrite E. now left.
Qed.

Lemma digit_val_nonneg a : is_digit a = true -> 0 <= digit_val a.
Proof.
  unfold is_digit, digit_val. intros H. apply andb_true_iff in H as [H1 _].
  apply Nat.leb_le in H1. lia.
Qed.

(** A run of digits is read to its end, and all of it is counted. *)
Lemma scan_digits_all l : forall acc digits,
  forallb is_digit l = true -> 0 <= acc ->
  exists value,
    0 <= value /\
    scan_digits acc digits false l = RunEnd value (digits + List.length l) [].
Proof.
  induction l as [|a l IH]; intros acc digits H Hacc.
  - exists acc. simpl. rewrite Nat.add_0_r. auto.
  - simpl in H. apply andb_true_iff in H as [Ha Hl]. cbn [scan_digits]. rewrite Ha.
    pose proof (digit_val_nonneg a Ha).
    destruct (IH (10 * acc + digit_val a) (S digits) Hl ltac:(lia)) as (v & Hv & ->).
    exists v. split; [exact Hv|]. f_equal. simpl. lia.
Qed.

Lemma sign_free_digit a l :
  is_digit a = true ->
  int_sign (a :: l) = (false, a :: l) /\ starts_with_underscore (a :: l) = false.
Proof.
  destruct a as [[] [] [] [] [] [] [] []]; intros H; try (split; reflexivity);
    vm_compute in H; discriminate H.
Qed.

Lemma list_ascii_length s :
  List.length (list_ascii_of_string s) = String.length s.
Proof. induction s as [|a s IH]; simpl; [reflexivity | now rewrite IH]. Qed.

(** ASCII text that [isdigit] accepts is text that [int] reads, unless it
    is longer than the limit on digits allows. *)
Lemma isdigit_parse_int b limit s :
  is_ascii s = true -> str_isdigit b s = true ->
  exists n,
    0 <= n /\
    parse_int limit s
    = if Nat.ltb 640 (String.length s) && Nat.ltb 0 limit
         && Nat.ltb limit (String.length s)
      then IntTooLong (String.length s) else IntValue n.
Proof.
  unfold str_isdigit, parse_int. intros -> H.
  destruct s as [|a s]; [discriminate|].
  rewrite (strip_digits _ H).
  cbn [list_ascii_of_string] in *.
  assert (Ha : is_digit a = true) by (simpl in H; now apply andb_true_iff in H).
  destruct (sign_free_digit a (list_ascii_of_string s) Ha) as [-> ->].
  destruct (scan_digits_all _ 0 0%nat H ltac:(lia)) as (v & Hv & ->).
  exists v. split; [exact Hv|].
  cbn [Nat.add List.length String.length]. rewrite list_ascii_length.
  cbn [Nat.eqb]. reflexivity.
Qed.

Lemma has_scheme_http t : has_scheme ("http://" ++ t) = true.
Proof.
  unfold has_scheme. apply orb_true_iff. left.
  apply String.prefix_correct. simpl. destruct t; reflexivity.
Qed.

(** The type [main] settles on. *)
Lemma main_cases b a :
  main_setup b a = SysExit 1 /\
  ((arg_interval a < 1 # 1000)%Q \/ (arg_timeout a <= 0)%Q) \/
  (~ (arg_interval a < 1 # 1000)%Q /\ ~ (arg_timeout a <= 0)%Q /\
   exists type,
     main_setup b a =
     Monitor (mk_config
                (if String.eqb type "http" && negb (has_scheme (arg_target a))
                 then "http://" ++ arg_target a else arg_target a)
                type (arg_interval a) (arg_timeout a) (arg_threshold a)
                (arg_log_file a) (negb (arg_no_verify a))) /\
     (type = "tcp" /\ arg_type a = "http" /\ has_scheme (arg_target a) = false /\
      (exists host port,
         rsplit1 ":" (arg_target a) = [host; port] /\ str_isdigit b port = true)
      \/
      type = arg_type a /\
      ~ (arg_type a = "http" /\ has_scheme (arg_target a) = false /\
         exists host port,
           rsplit1 ":" (arg_target a) = [host; port] /\
           str_isdigit b port = true))).
Proof.
  unfold main_setup.
  destruct (Qgtb (1 # 1000) (arg_interval a)) eqn:Ei.
  { left. apply Qgtb_spec in Ei. auto. }
  destruct (Qle_bool (arg_timeout a) 0) eqn:Et.
  { left. apply Qle_bool_iff in Et. auto. }
  right.
  split; [intros H; apply Qgtb_spec in H; congruence|].
  split; [intros H; apply Qle_bool_iff in H; congruence|].
  destruct (String.eqb (arg_type a) "http") eqn:Ety; cbn [andb].
  2: { exists (arg_type a). split; [reflexivity|]. right. split; [reflexivity|].
       intros (Hh & _). apply String.eqb_eq in Hh. congruence. }
  apply String.eqb_eq in Ety.
  destruct (has_scheme (arg_target a)) eqn:Esch; cbn [negb].
  { exists (arg_type a). split; [reflexivity|]. right. split; [reflexivity|].
    intros (_ & Hh & _). discriminate Hh. }
  destruct (str_in ":" (arg_target a)) eqn:Ein.
  - unfold str_split. rewrite split_colon_last.
    destruct (proj1 (rsplit1_colon (arg_target a)) Ein) as (host & port & Hsp & _).
    rewrite Hsp. destruct (str_isdigit b port) eqn:Ed.
    + exists "tcp". split; [reflexivity|]. left. eauto 10.
    + exists (arg_type a). split; [reflexivity|]. right. split; [reflexivity|].
      intros (_ & _ & h & p & Hsp' & Hd). try rewrite Hsp in Hsp'.
      injection Hsp' as <- <-. congruence.
  - exists (arg_type a). split; [reflexivity|]. right. split; [reflexivity|].
    intros (_ & _ & h & p & Hsp' & _).
    rewrite (proj2 (rsplit1_colon (arg_target a)) Ein) in Hsp'. discriminate Hsp'.
Qed.

(** X10. [main] exits with status 1, before any check is made, exactly when
    the interval is below one millisecond or the timeout is not positive.
    Otherwise it builds a monitor with the interval, timeout, threshold and
    log file of the command line, and with certificate verification switched
    on unless [--no-verify] was given, and calls its [run]: what [main] does
    from there on, and the way it ends, are those of that [run]. *)
Theorem main_validation b a started now ws :
  (main_setup b a = SysExit 1 <->
   (arg_interval a < 1 # 1000)%Q \/ (arg_timeout a <= 0)%Q) /\
  ((arg_interval a < 1 # 1000)%Q \/ (arg_timeout a <= 0)%Q ->
   main b a started now ws = ([], EndExit 1)) /\
  (~ (arg_interval a < 1 # 1000)%Q -> ~ (arg_timeout a <= 0)%Q ->
   exists cfg,
     main_setup b a = Monitor cfg /\
     interval cfg = arg_interval a /\ timeout cfg = arg_timeout a /\
     threshold cfg = arg_threshold a /\ log_file cfg = arg_log_file a /\
     verify_ssl cfg = negb (arg_no_verify a) /\
     main b a started now ws
     = (trace_of (run cfg now ws (new_monitor started)),
        EndRun (result_of (run cfg now ws (new_monitor started))))).
Proof.
  destruct (main_cases b a) as [[Hm Hbad] | (Hi & Ht & type & Hm & _)].
  - split; [split; auto|]. split.
    + intros _. unfold main. rewrite Hm. reflexivity.
    + intros Hi Ht. destruct Hbad; contradiction.
  - split; [split; [rewrite Hm; discriminate | intros [H|H]; contradiction]|].
    split; [intros [H|H]; contradiction|].
    intros _ _. eexists. split; [exact Hm|]. cbn [interval timeout threshold
      log_file verify_ssl]. repeat (split; [reflexivity|]).
    unfold main. rewrite Hm.
    destruct (run _ now ws (new_monitor started)) as [[tr m'] r]. reflexivity.
Qed.

Lemma main_validation_witness :
  main sample_builtins (mk_args "example.com" "http" (1 # 2000) 5 100 None false)
    0 60 [quiet_world]
  = ([], EndExit 1) /\
  (exists cfg,
     main_setup sample_builtins (sample_args "example.com" "http") = Monitor cfg /\
     verify_ssl cfg = negb false).
Proof.
  split.
  - apply (proj1 (proj2 (main_validation sample_builtins
                    (mk_args "example.com" "http" (1 # 2000) 5 100 None false)
                    0 60 [quiet_world]))).
    left. reflexivity.
  - destruct (proj2 (proj2 (main_validation sample_builtins
                (sample_args "example.com" "http") 0 60 [quiet_world])))
      as (cfg & Hm & _ & _ & _ & _ & Hv & _).
    + intros H. discriminate H.
    + intros H. apply H. reflexivity.
    + exists cfg. split; [exact Hm | exact Hv].
Defined.

(** X11. When the command line names one of the types [argparse] offers, the
    monitor that [main] starts has a check type [_check_service] knows, so
    every check returns a result, and a failed one always says why. *)
Theorem main_check_type_known b a cfg :
  type_choice a -> main_setup b a = Monitor cfg ->
  known_check_type cfg /\
  forall w, exists r, snd (_check_service cfg w) = Ok r /\ failure_has_text r.
Proof.
  intros Hty Hm.
  assert (Hk : known_check_type cfg).
  { destruct (main_cases b a) as [[Hx _] | (_ & _ & type & Hm' & Hcase)];
      [congruence|].
    rewrite Hm' in Hm. injection Hm as <-. unfold known_check_type. cbn.
    destruct Hcase as [(-> & _) | (-> & _)]; [auto | exact Hty]. }
  split; [exact Hk|]. intros w. exact (check_service_known cfg w Hk).
Qed.

Lemma main_check_type_known_witness :
  exists cfg,
    main_setup sample_builtins (sample_args "example.com:5432" "http") = Monitor cfg /\
    known_check_type cfg.
Proof.
  eexists. split; [reflexivity|].
  apply (main_check_type_known sample_builtins
           (sample_args "example.com:5432" "http")).
  - left. reflexivity.
  - reflexivity.
Defined.

(** X12. With the default type [http], a target without [http://] or
    [https://] whose text after the last colon [isdigit] accepts is
    monitored over TCP, with the target left as it is; no other target is.
    When that port text is ASCII and not longer than the limit on digits
    allows, it is well formed for the TCP check: [int] reads it as a number
    that is not negative, and the check goes on to open a socket.  When it
    is longer than the limit allows, every check fails on it with latency
    [0] before any socket is opened. *)
Theorem main_detects_tcp b a cfg :
  arg_type a = "http" -> main_setup b a = Monitor cfg ->
  (check_type cfg = "tcp" <->
   has_scheme (arg_target a) = false /\
   exists host port,
     rsplit1 ":" (arg_target a) = [host; port] /\ str_isdigit b port = true) /\
  (check_type cfg = "tcp" ->
   target cfg = arg_target a /\
   exists host port,
     rsplit1 ":" (target cfg) = [host; port] /\ str_isdigit b port = true /\
     (forall w,
        is_ascii port = true ->
        (String.length port <= 640)%nat \/
        int_max_str_digits (w_builtins w) = 0%nat \/
        (String.length port <= int_max_str_digits (w_builtins w))%nat ->
        (exists n, py_int (w_builtins w) port = Ok n /\ 0 <= n) /\
        hd_error (fst (_check_tcp cfg w)) = Some IoSocketOpen) /\
     (forall w,
        is_ascii port = true ->
        (640 < String.length port)%nat ->
        (0 < int_max_str_digits (w_builtins w) < String.length port)%nat ->
        exists text,
          _check_tcp cfg w = ([], Ok (mk_check false 0%Q (Some text))))).
Proof.
  intros Hty Hm.
  destruct (main_cases b a) as [[Hx _] | (_ & _ & type & Hm' & Hcase)]; [congruence|].
  rewrite Hm' in Hm. injection Hm as <-. cbn [check_type target].
  destruct Hcase as [(-> & _ & Hsch & host & port & Hsp & Hd) | (-> & Hnot)].
  - split; [split; eauto|]. intros _. cbn [String.eqb Ascii.eqb Bool.eqb andb].
    split; [reflexivity|].
    exists host, port. split; [exact Hsp|]. split; [exact Hd|].
    split.
    + intros w Hascii Hlen.
      destruct (isdigit_parse_int b (int_max_str_digits (w_builtins w)) port
                  Hascii Hd) as (n & Hn0 & Hn).
      assert (Hlim : Nat.ltb 640 (String.length port)
                     && Nat.ltb 0 (int_max_str_digits (w_builtins w))
                     && Nat.ltb (int_max_str_digits (w_builtins w))
                          (String.length port) = false).
      { destruct Hlen as [H|[H|H]].
        - replace (Nat.ltb 640 (String.length port)) with false; [reflexivity|].
          symmetry. apply Nat.ltb_ge. exact H.
        - rewrite H. change (Nat.ltb 0 0) with false.
          rewrite andb_false_r. reflexivity.
        - replace (Nat.ltb (int_max_str_digits (w_builtins w))
                     (String.length port)) with false; [apply andb_false_r|].
          symmetry. apply Nat.ltb_ge. exact H. }
      rewrite Hlim in Hn.
      assert (Hint : py_int (w_builtins w) port = Ok n).
      { unfold py_int. rewrite Hascii, Hn. reflexivity. }
      split; [exists n; auto|].
      rewrite (check_tcp_cases
                 (mk_config (arg_target a) "tcp" (arg_interval a) (arg_timeout a)
                    (arg_threshold a) (arg_log_file a) (negb (arg_no_verify a)))
                 w host port Hsp).
      cbn [target timeout]. cbv zeta. rewrite Hint.
      destruct (w_socket w) as [[]|e]; [|reflexivity].
      destruct (w_settimeout w (arg_timeout a)) as [[]|e]; [|reflexivity].
      destruct (w_connect_ex w host n); reflexivity.
    + intros w Hascii H640 [Hpos Hlim].
      destruct (isdigit_parse_int b (int_max_str_digits (w_builtins w)) port
                  Hascii Hd) as (n & _ & Hn).
      replace (Nat.ltb 640 (String.length port)) with true in Hn
        by (symmetry; apply Nat.ltb_lt; exact H640).
      replace (Nat.ltb 0 (int_max_str_digits (w_builtins w))) with true in Hn
        by (symmetry; apply Nat.ltb_lt; exact Hpos).
      replace (Nat.ltb (int_max_str_digits (w_builtins w)) (String.length port))
        with true in Hn by (symmetry; apply Nat.ltb_lt; exact Hlim).
      cbn [andb] in Hn.
      rewrite (check_tcp_cases
                 (mk_config (arg_target a) "tcp" (arg_interval a) (arg_timeout a)
                    (arg_threshold a) (arg_log_file a) (negb (arg_no_verify a)))
                 w host port Hsp).
      cbv zeta. unfold py_int. rewrite Hascii, Hn. eexists. reflexivity.
  - rewrite Hty. split; [split|].
    + discriminate.
    + intros (Hsch & Hex). exfalso. apply Hnot. auto.
    + discriminate.
Qed.

Lemma main_detects_tcp_witness :
  exists cfg,
    main_setup sample_builtins (sample_args "localhost:8080" "http") = Monitor cfg /\
    check_type cfg = "tcp" /\ target cfg = "localhost:8080" /\
    hd_error (fst (_check_tcp cfg quiet_world)) = Some IoSocketOpen.
Proof.
  eexists. split; [reflexivity|].
  destruct (main_detects_tcp sample_builtins (sample_args "localhost:8080" "http") _
              eq_refl eq_refl) as (Hiff & Htcp).
  assert (Ht : check_type
                 (mk_config "localhost:8080" "tcp" 1 5 100 None true) = "tcp").
  { apply (proj2 Hiff). split; [reflexivity|].
    exists "localhost", "8080". split; reflexivity. }
  split; [exact Ht|]. destruct (Htcp Ht) as (Htgt & host & port & Hsp & _ & Hok & _).
  split; [exact Htgt|].
  injection Hsp as <- <-.
  apply (Hok quiet_world eq_refl). left. simpl. lia.
Defined.

Lemma check_http_trace cfg w :
  fst (_check_http cfg w) = [IoHttpGet (target cfg) (timeout cfg) (verify_ssl cfg)].
Proof.
  unfold _check_http. apply trace_emit_then; [| intros e]; cbv beta;
    repeat quiet_step.
Qed.

(** X13. A monitor that [main] starts with type [http] has a target that
    begins with [http://] or [https://]: the target of the command line when
    it already does, and that target behind [http://] otherwise.  Each of its
    checks sends one request, to that URL, with the timeout of the command
    line and with certificate verification unless [--no-verify] was given.
    For the other types the target is the one of the command line. *)
Theorem main_http_target b a cfg :
  main_setup b a = Monitor cfg ->
  (check_type cfg = "http" ->
   has_scheme (target cfg) = true /\
   (has_scheme (arg_target a) = true -> target cfg = arg_target a) /\
   (has_scheme (arg_target a) = false -> target cfg = "http://" ++ arg_target a) /\
   forall w,
     fst (_check_http cfg w)
     = [IoHttpGet (target cfg) (arg_timeout a) (negb (arg_no_verify a))]) /\
  (check_type cfg <> "http" -> target cfg = arg_target a).
Proof.
  intros Hm.
  destruct (main_cases b a) as [[Hx _] | (_ & _ & type & Hm' & _)]; [congruence|].
  rewrite Hm' in Hm. injection Hm as <-. cbn [check_type target].
  split.
  - intros ->. cbn [String.eqb Ascii.eqb Bool.eqb andb].
    destruct (has_scheme (arg_target a)) eqn:Esch; cbn [negb].
    + repeat split; auto; try discriminate. intros w. apply check_http_trace.
    + split; [apply has_scheme_http|]. repeat split; auto; try discriminate.
      intros w. rewrite check_http_trace. reflexivity.
  - intros Hne. destruct (String.eqb type "http") eqn:E; [|reflexivity].
    apply String.eqb_eq in E. contradiction.
Qed.

Lemma main_http_target_witness :
  exists cfg,
    main_setup sample_builtins (sample_args "example.com" "http") = Monitor cfg /\
    target cfg = "http://example.com".
Proof.
  eexists. split; [reflexivity|].
  destruct (main_http_target sample_builtins (sample_args "example.com" "http") _
              eq_refl)
    as (Hhttp & _).
  destruct (Hhttp eq_refl) as (_ & _ & Hpre & _).
  apply Hpre. reflexivity.
Defined.

(* ------------------------------------------------------------------------- *)
(** * The log file and the growth of the statistics *)

(** X14. With a log file that can be written, an iteration whose check
    returns logs that check, success or failure, in one line that carries
    SUCCESS or FAILURE, the latency, and the error message or [OK]; a failed
    check is logged twice, the DOWNTIME line of the status printer coming
    first.  Without a log file an iteration logs nothing.  Neither depends on
    SIGINT arriving during the iteration. *)
Theorem iteration_logging cfg w m trp cr :
  _check_service cfg w = (trp, Ok cr) ->
  (str_truthy (log_file cfg) = true -> w_log_write w = Ok tt ->
   log_lines (trace_of (iteration cfg w m))
   = ((if success cr then []
       else [LogDowntime (str_or (error_msg cr) "Unknown error")
               (if Qgtb (response_time cr) 0 then Some (response_time cr)
                else None)])
      ++ [LogCheck (if success cr then "SUCCESS" else "FAILURE")
            (response_time cr) (str_or (error_msg cr) "OK")])%list) /\
  (str_truthy (log_file cfg) = false ->
   log_lines (trace_of (iteration cfg w m)) = []).
Proof.
  intros Ecs.
  pose proof (check_service_quiet cfg w) as Hq. unfold io_quiet in Hq.
  rewrite Ecs in Hq. simpl in Hq.
  destruct (io_trace_observers trp Hq) as (_ & Hl & _).
  split.
  - intros Ht Hw.
    unfold iteration, mbind, liftio, deliver, _signal_handler, mret, modify_stats.
    rewrite Ecs. cbn beta iota delta [fst snd].
    rewrite check_log_line.
    unfold _print_status, _log, bind, emit, lift, ret. rewrite Ht, Hw.
    destruct (w_sleep w (interval cfg)) as [[]|es];
      destruct (w_sigint w SigInProbe), (w_sigint w SigInRecord),
      (w_sigint w SigInReport), (w_sigint w SigInSleep),
      (success cr), (Qgtb (response_time cr) (threshold cfg));
      unfold trace_of; cbn [fst snd app];
      repeat (rewrite ?log_lines_app, ?Hl; cbn [log_lines app]); reflexivity.
  - intros Ht.
    unfold iteration, mbind, liftio, deliver, _signal_handler, mret, modify_stats.
    rewrite Ecs. cbn beta iota delta [fst snd].
    rewrite check_log_line.
    unfold _print_status, _log, bind, emit, lift, ret. rewrite Ht.
    destruct (w_sleep w (interval cfg)) as [[]|es];
      destruct (w_sigint w SigInProbe), (w_sigint w SigInRecord),
      (w_sigint w SigInReport), (w_sigint w SigInSleep),
      (success cr), (Qgtb (response_time cr) (threshold cfg));
      unfold trace_of; cbn [fst snd app];
      repeat (rewrite ?log_lines_app, ?Hl; cbn [log_lines app]); reflexivity.
Qed.

Lemma iteration_logging_witness :
  log_lines (trace_of (iteration sample_tcp quiet_world (new_monitor 0)))
  = [LogCheck "SUCCESS" 20 "OK"].
Proof.
  apply (proj1 (iteration_logging sample_tcp quiet_world (new_monitor 0)
                  [IoSocketOpen; IoSocketSetTimeout 5;
                   IoSocketConnect "example.com" 5432; IoSocketClose]
                  (mk_check true 20 None) eq_refl)); reflexivity.
Defined.

(** X15. An HTTP response with a status code outside [[200, 400)] gives a
    failure that keeps the measured latency and names the code
    ([HTTP 404]); an exception that is neither a timeout nor a connection
    error gives a failure with latency 0 and the text of the exception. *)
Theorem check_http_other_failures cfg w :
  (forall code,
     w_http_get w (target cfg) (timeout cfg) (verify_ssl cfg) = Ok code ->
     code < 200 \/ 400 <= code ->
     snd (_check_http cfg w)
     = Ok (mk_check false (w_elapsed_ms w) (Some ("HTTP " ++ str_of_Z code)))) /\
  (forall e,
     w_http_get w (target cfg) (timeout cfg) (verify_ssl cfg) = Raise e ->
     is_requests_Timeout e = false -> is_requests_ConnectionError e = false ->
     snd (_check_http cfg w)
     = Ok (mk_check false 0%Q (Some ("Error: " ++ exn_str e)))).
Proof.
  split.
  - intros code Hc Hout. unfold _check_http, try_except, bind, emit, lift, ret.
    rewrite Hc.
    replace ((200 <=? code) && (code <? 400)) with false; [reflexivity|].
    symmetry. apply andb_false_iff.
    destruct Hout; [left; apply Z.leb_gt | right; apply Z.ltb_ge]; lia.
  - intros e He Ht Hc. unfold _check_http, try_except, bind, emit, lift, ret.
    rewrite He, Ht, Hc. reflexivity.
Qed.

Lemma check_http_other_failures_witness :
  snd (_check_http sample_http (sample_world (Ok 404) no_sigint))
  = Ok (mk_check false 20 (Some "HTTP 404")).
Proof.
  apply (proj1 (check_http_other_failures sample_http
                  (sample_world (Ok 404) no_sigint)) 404).
  - reflexivity.
  - right. lia.
Defined.

Lemma record_check_grows now r st :
  exists rts evs,
    response_times (record_check now r st) = (response_times st ++ rts)%list /\
    downtime_events (record_check now r st) = (downtime_events st ++ evs)%list /\
    start_time (record_check now r st) = start_time st /\
    total_checks (record_check now r st)
    = total_checks st + Z.of_nat (List.length rts) + Z.of_nat (List.length evs).
Proof.
  unfold record_check. destruct (success r); cbn.
  - exists [response_time r], []. rewrite app_nil_r. repeat split. simpl. lia.
  - eexists [], [_]. rewrite app_nil_r. repeat split. simpl. lia.
Qed.

Lemma while_grows cfg ws : forall m,
  exists rts evs,
    response_times (stats (monitor_of (while_running cfg ws m)))
    = (response_times (stats m) ++ rts)%list /\
    downtime_events (stats (monitor_of (while_running cfg ws m)))
    = (downtime_events (stats m) ++ evs)%list /\
    start_time (stats (monitor_of (while_running cfg ws m))) = start_time (stats m) /\
    total_checks (stats (monitor_of (while_running cfg ws m)))
    = total_checks (stats m) + Z.of_nat (List.length rts)
      + Z.of_nat (List.length evs).
Proof.
  assert (Hrefl : forall m : monitor,
            exists rts evs : list _,
              response_times (stats m) = (response_times (stats m) ++ rts)%list /\
              downtime_events (stats m) = (downtime_events (stats m) ++ evs)%list /\
              start_time (stats m) = start_time (stats m) /\
              total_checks (stats m)
              = total_checks (stats m) + Z.of_nat (List.length rts)
                + Z.of_nat (List.length evs)).
  { intros m. exists [], []. rewrite !app_nil_r. repeat split. simpl. lia. }
  induction ws as [|w ws IH]; intros m.
  - simpl. destruct (running m); apply Hrefl.
  - destruct (running m) eqn:Hr; [| rewrite (while_stopped _ _ _ Hr); apply Hrefl].
    rewrite (while_step _ _ _ _ Hr).
    destruct (iteration cfg w m) as [[tr1 m1] r1] eqn:Eit.
    destruct (iteration_spec _ _ _ _ _ _ Eit) as (_ & _ & _ & _ & Hok & Hraise).
    assert (Hstep : exists rts evs,
              response_times (stats m1) = (response_times (stats m) ++ rts)%list /\
              downtime_events (stats m1) = (downtime_events (stats m) ++ evs)%list /\
              start_time (stats m1) = start_time (stats m) /\
              total_checks (stats m1)
              = total_checks (stats m) + Z.of_nat (List.length rts)
                + Z.of_nat (List.length evs)).
    { destruct (_check_service cfg w) as [trp [cr|e]].
      - destruct (Hok _ _ eq_refl) as [-> _]. apply record_check_grows.
      - destruct (Hraise _ _ eq_refl) as [-> _]. apply Hrefl. }
    destruct r1 as [[]|e]; [|exact Hstep].
    destruct Hstep as (rts1 & evs1 & H1 & H2 & H3 & H4).
    destruct (IH m1) as (rts2 & evs2 & G1 & G2 & G3 & G4).
    destruct (while_running cfg ws m1) as [[tr2 m2] r2].
    unfold monitor_of in *. cbn [fst snd] in *.
    exists (rts1 ++ rts2)%list, (evs1 ++ evs2)%list.
    rewrite G1, G2, G3, G4, H1, H2, H3, H4, !app_assoc, !length_app.
    repeat split. lia.
Qed.

(** X16. Whatever happens during a run, the statistics only grow: the
    latency samples and the downtime events the monitor had before are still
    there, in the same order and in front of the new ones, [start_time] is
    the one set at construction, and [total_checks] has grown by exactly the
    number of new samples plus the number of new events. *)
Theorem run_statistics_grow cfg now ws m :
  exists rts evs,
    response_times (stats (monitor_of (run cfg now ws m)))
    = (response_times (stats m) ++ rts)%list /\
    downtime_events (stats (monitor_of (run cfg now ws m)))
    = (downtime_events (stats m) ++ evs)%list /\
    start_time (stats (monitor_of (run cfg now ws m))) = start_time (stats m) /\
    total_checks (stats (monitor_of (run cfg now ws m)))
    = total_checks (stats m) + Z.of_nat (List.length rts)
      + Z.of_nat (List.length evs).
Proof.
  assert (Hm : monitor_of (run cfg now ws m) = monitor_of (while_running cfg ws m)).
  { destruct (while_running cfg ws m) as [[tr m'] r] eqn:E.
    destruct (run_unfold cfg now ws m _ _ _ E) as [[_ ->] | [_ (s & _ & ->)]];
      reflexivity. }
  rewrite Hm. apply while_grows.
Qed.
